(** * epoch-server MCP adapter: [mcp-server/main.py]

    A shallow embedding of the three tool handlers of [EpochMCPServer], of the
    module-level configuration and of the registration of the handlers with
    the MCP server, together with the parts of the Python run time the
    handlers rely on: truthiness, [str]/[repr] as used by f-strings,
    exceptions and [try]/[except], [json] decoding, and the [httpx] response
    object. *)

From Stdlib Require Import ZArith NArith String Ascii List Lia DecimalString.
From stdpp Require Import gmap strings.

Local Open Scope Z_scope.
Local Set Warnings "-register-all".

(** ** Text *)

Module Text.

(** [needle in hay] of Python, on strings. *)
Fixpoint contains (needle hay : string) : bool :=
  if String.prefix needle hay then true
  else match hay with
       | EmptyString => false
       | String _ rest => contains needle rest
       end.

(** [sep.join(parts)]. *)
Fixpoint join (sep : string) (parts : list string) : string :=
  match parts with
  | [] => ""
  | [p] => p
  | p :: rest => p +:+ sep +:+ join sep rest
  end.

Fixpoint repeat_char (c : ascii) (n : nat) : string :=
  match n with
  | O => ""
  | S k => String c (repeat_char c k)
  end.

Definition code (c : ascii) : Z := Z.of_N (N_of_ascii c).

(** The double quote character. *)
Definition dquote : ascii := "034".

Definition is_digit (c : ascii) : bool := (48 <=? code c) && (code c <=? 57).

Definition digit_value (c : ascii) : Z := code c - 48.

Definition hex_digit (n : Z) : ascii :=
  ascii_of_N (Z.to_N (if n <? 10 then 48 + n else 87 + n)).

(** Two lower-case hexadecimal digits, as in the [\xhh] escapes of [repr]. *)
Definition hex2 (c : ascii) : string :=
  String (hex_digit (code c / 16)) (String (hex_digit (code c mod 16)) "").

(** [str(n)] for an integer: decimal digits with a leading minus sign. *)
Definition of_Z (n : Z) : string := NilZero.string_of_int (Z.to_int n).

End Text.

(** ** Python floats

    A [float] is an IEEE 754 binary64 number.  Decimal literals are rounded to
    the nearest representable number (ties to even), and [repr] prints the
    shortest decimal string that reads back as the same number, both computed
    here with exact integer arithmetic. *)

Module PyFloat.

(** [Fin neg m e] stands for [(-1)^neg * m * 2^e].  Zero is [Fin neg 0 0];
    normal numbers have [2^52 <= m < 2^53] and [-1074 <= e <= 971];
    subnormal ones have [0 < m < 2^52] and [e = -1074]. *)
Inductive t :=
| Nan
| Inf (neg : bool)
| Fin (neg : bool) (m : Z) (e : Z).

Definition eqb (x y : t) : bool :=
  match x, y with
  | Nan, Nan => true
  | Inf a, Inf b => Bool.eqb a b
  | Fin a m e, Fin b n f => Bool.eqb a b && (m =? n) && (e =? f)
  | _, _ => false
  end.

Definition is_zero (x : t) : bool :=
  match x with
  | Fin _ m _ => m =? 0
  | _ => false
  end.

(** [num / den] rounded to an integer, halves to the even neighbour. *)
Definition round_half_even (num den : Z) : Z :=
  let q := num / den in
  let r := num mod den in
  if 2 * r <? den then q
  else if den <? 2 * r then q + 1
  else if Z.even q then q else q + 1.

(** The fraction [num / (den * 2^e)] as a pair of integers. *)
Definition scaled (num den e : Z) : Z * Z :=
  if 0 <=? e then (num, den * 2 ^ e) else (num * 2 ^ (- e), den).

(** The binary64 number nearest to [num / den], for [num, den > 0]. *)
Definition of_ratio (neg : bool) (num den : Z) : t :=
  let e0 := Z.log2 num - Z.log2 den - 52 in
  let '(n0, d0) := scaled num den e0 in
  let e1 := if 2 ^ 52 * d0 <=? n0 then e0 else e0 - 1 in
  let e2 := Z.max e1 (- 1074) in
  let '(n2, d2) := scaled num den e2 in
  let q := round_half_even n2 d2 in
  let '(m, e) := if q =? 2 ^ 53 then (2 ^ 52, e2 + 1) else (q, e2) in
  if m =? 0 then Fin neg 0 0
  else if 971 <? e then Inf neg
  else Fin neg m e.

(** [float(s)] for the decimal literal [(-1)^neg * m * 10^k], [m >= 0]. *)
Definition of_decimal (neg : bool) (m k : Z) : t :=
  if m =? 0 then Fin neg 0 0
  else
    let magnitude := k + Z.log2 m * 30103 / 100000 in
    if 400 <? magnitude then Inf neg
    else if magnitude <? - 400 then Fin neg 0 0
    else if 0 <=? k then of_ratio neg (m * 10 ^ k) 1
    else of_ratio neg m (10 ^ (- k)).

(** [10^d <= num / den] *)
Definition le_pow10 (d num den : Z) : bool :=
  if 0 <=? d then 10 ^ d * den <=? num else den <=? num * 10 ^ (- d).

(** [floor (log10 (num / den))], from an estimate that is off by at most
    two. *)
Definition floor_log10 (num den : Z) : Z :=
  let est := (Z.log2 num - Z.log2 den) * 30103 / 100000 in
  let up d := if le_pow10 (d + 1) num den then d + 1 else d in
  let down d := if le_pow10 d num den then d else d - 1 in
  down (down (down (up (up (up est))))).

Fixpoint strip_zeros (fuel : nat) (c p : Z) : Z * Z :=
  match fuel with
  | O => (c, p)
  | S k => if (c mod 10 =? 0) && negb (c =? 0) then strip_zeros k (c / 10) (p + 1)
           else (c, p)
  end.

(** The candidate with [n] significant digits for [num / den]: the decimal
    [c * 10^p] nearest to it among those that read back as [x]. *)
Definition candidate (x : t) (num den : Z) (n : Z) : option (Z * Z) :=
  let p := floor_log10 num den - (n - 1) in
  let '(sn, sd) := if 0 <=? p then (num, den * 10 ^ p) else (num * 10 ^ (- p), den) in
  let lo := sn / sd in
  let r := sn mod sd in
  let hi := lo + 1 in
  let lo_ok := eqb (of_decimal false lo p) x in
  let hi_ok := eqb (of_decimal false hi p) x in
  let pick_lo := if 2 * r <? sd then true
                 else if sd <? 2 * r then false
                 else Z.even lo in
  match lo_ok, hi_ok with
  | true, true => Some (if pick_lo then (lo, p) else (hi, p))
  | true, false => Some (lo, p)
  | false, true => Some (hi, p)
  | false, false => None
  end.

Fixpoint shortest (x : t) (num den : Z) (n : Z) (fuel : nat) : Z * Z :=
  match fuel with
  | O => (0, 0)
  | S k => match candidate x num den n with
           | Some (c, p) => strip_zeros 20 c p
           | None => shortest x num den (n + 1) k
           end
  end.

(** The digits and the position of the decimal point of the shortest
    representation: the value is [0.digits * 10^decpt]. *)
Definition digits_decpt (m e : Z) : string * Z :=
  let '(num, den) := scaled m 1 (- e) in
  let '(c, p) := shortest (Fin false m e) num den 1 17 in
  let ds := Text.of_Z c in
  (ds, p + Z.of_nat (String.length ds)).

Definition exponent_text (ex : Z) : string :=
  let sign := if ex <? 0 then "-" else "+" in
  let a := Z.abs ex in
  "e" +:+ sign +:+ (if a <? 10 then "0" else "") +:+ Text.of_Z a.

(** [repr(x)], which is also [str(x)]. *)
Definition repr (x : t) : string :=
  match x with
  | Nan => "nan"
  | Inf neg => if neg then "-inf" else "inf"
  | Fin neg m e =>
      let sign := if neg then "-" else "" in
      if m =? 0 then sign +:+ "0.0"
      else
        let '(ds, decpt) := digits_decpt m e in
        let len := Z.of_nat (String.length ds) in
        if (decpt <=? - 4) || (16 <? decpt) then
          match ds with
          | EmptyString => sign
          | String d1 EmptyString => sign +:+ String d1 "" +:+ exponent_text (decpt - 1)
          | String d1 rest => sign +:+ String d1 "." +:+ rest +:+ exponent_text (decpt - 1)
          end
        else if decpt <=? 0 then
          sign +:+ "0." +:+ Text.repeat_char "0" (Z.to_nat (- decpt)) +:+ ds
        else if len <=? decpt then
          sign +:+ ds +:+ Text.repeat_char "0" (Z.to_nat (decpt - len)) +:+ ".0"
        else
          sign +:+ String.substring 0 (Z.to_nat decpt) ds +:+ "."
               +:+ String.substring (Z.to_nat decpt) (Z.to_nat (len - decpt)) ds
  end.

End PyFloat.

(** ** Python values

    The values that reach the handlers: what JSON decoding produces, which is
    also what an argument mapping of a tool call holds and what
    [response.json()] returns.  A [dict] keeps its keys in insertion order.
    Text is a [string] of ASCII characters; bytes above 127 stand for the
    UTF-8 encoding of other characters and are carried through unchanged.
    The length limit of CPython on conversions between [int] and [str]
    ([sys.set_int_max_str_digits]) is a run-time setting and is not part of
    the model. *)

Module Py.

Inductive value :=
| None_
| Bool (b : bool)
| Int (n : Z)
| Float (x : PyFloat.t)
| Str (s : string)
| List (items : list value)
| Dict (items : list (string * value)).

(** [bool(v)], the test made by [if not v]. *)
Definition truthy (v : value) : bool :=
  match v with
  | None_ => false
  | Bool b => b
  | Int n => negb (n =? 0)
  | Float x => negb (PyFloat.is_zero x)
  | Str s => negb (String.eqb s "")
  | List items => match items with [] => false | _ => true end
  | Dict items => match items with [] => false | _ => true end
  end.

(** [d[k] = v] on an insertion-ordered dictionary: a key already present
    keeps its place and takes the new value. *)
Fixpoint dict_set (d : list (string * value)) (k : string) (v : value)
  : list (string * value) :=
  match d with
  | [] => [(k, v)]
  | (k', v') :: rest =>
      if String.eqb k' k then (k', v) :: rest else (k', v') :: dict_set rest k v
  end.

(** One character of [repr(s)] inside the quotes [q]. *)
Definition repr_char (q c : ascii) : string :=
  if Ascii.eqb c q || Ascii.eqb c "\"%char then String "\"%char (String c "")
  else if Ascii.eqb c "009"%char then "\t"
  else if Ascii.eqb c "010"%char then "\n"
  else if Ascii.eqb c "013"%char then "\r"
  else if (Text.code c <? 32) || (Text.code c =? 127) then "\x" +:+ Text.hex2 c
  else String c "".

Fixpoint repr_chars (q : ascii) (s : string) : string :=
  match s with
  | EmptyString => ""
  | String c rest => repr_char q c +:+ repr_chars q rest
  end.

(** [repr(s)] for a string: single quotes, unless the text has a single
    quote and no double quote. *)
Definition repr_str (s : string) : string :=
  let q : ascii :=
    if Text.contains "'" s && negb (Text.contains (String Text.dquote "") s)
    then Text.dquote else "'"%char in
  String q (repr_chars q s) +:+ String q "".

Fixpoint repr (v : value) : string :=
  match v with
  | None_ => "None"
  | Bool b => if b then "True" else "False"
  | Int n => Text.of_Z n
  | Float x => PyFloat.repr x
  | Str s => repr_str s
  | List items => "[" +:+ Text.join ", " (map repr items) +:+ "]"
  | Dict items =>
      "{" +:+ Text.join ", "
                (map (fun kv => repr_str (fst kv) +:+ ": " +:+ repr (snd kv)) items)
          +:+ "}"
  end.

(** [str(v)], which is what an f-string field [{v}] inserts. *)
Definition str (v : value) : string :=
  match v with
  | Str s => s
  | _ => repr v
  end.

End Py.

(** ** [json.loads]

    The decoder of CPython's [json] module (the scanner of [_json.c] driven by
    [JSONDecoder.decode]) on a text document, with its error messages and
    positions as of CPython 3.11.  Positions count characters from 0.  A
    nested value costs two units of fuel and at least one character, so the
    fuel given by [decode], twice the length of the document plus two, is
    never used up (lemmas [fuel_stable] and [scanstring_fuel] below).
    CPython's bound on the depth of nesting ([RecursionError]) depends on the
    state of the interpreter's stack and is not part of the model. *)

Module Json.

(** A [JSONDecodeError]: message and position. *)
Record error := Error { msg : string; pos : Z }.

Definition result (A : Type) : Type := error + A.

Definition fail {A} (m : string) (p : Z) : result A := inl (Error m p).

Definition is_whitespace (c : ascii) : bool :=
  Ascii.eqb c " " || Ascii.eqb c "009" || Ascii.eqb c "010" || Ascii.eqb c "013".

Fixpoint skip_whitespace (s : string) (p : Z) : string * Z :=
  match s with
  | String c rest => if is_whitespace c then skip_whitespace rest (p + 1) else (s, p)
  | EmptyString => (s, p)
  end.

Definition hex_value (c : ascii) : option Z :=
  let n := Text.code c in
  if (48 <=? n) && (n <=? 57) then Some (n - 48)
  else if (65 <=? n) && (n <=? 70) then Some (n - 55)
  else if (97 <=? n) && (n <=? 102) then Some (n - 87)
  else None.

(** The four hexadecimal digits of a [\uXXXX] escape. *)
Definition hex4 (s : string) : option Z :=
  match s with
  | String a (String b (String c (String d _))) =>
      match hex_value a, hex_value b, hex_value c, hex_value d with
      | Some x, Some y, Some z, Some w => Some (((x * 16 + y) * 16 + z) * 16 + w)
      | _, _, _, _ => None
      end
  | _ => None
  end.

Fixpoint drop (n : nat) (s : string) : string :=
  match n, s with
  | S k, String _ rest => drop k rest
  | _, _ => s
  end.

Definition byte (n : Z) : ascii := ascii_of_N (Z.to_N n).

(** The UTF-8 encoding of a code point. *)
Definition utf8 (c : Z) : string :=
  if c <? 128 then String (byte c) ""
  else if c <? 2048 then
    String (byte (192 + c / 64)) (String (byte (128 + c mod 64)) "")
  else if c <? 65536 then
    String (byte (224 + c / 4096))
      (String (byte (128 + (c / 64) mod 64)) (String (byte (128 + c mod 64)) ""))
  else
    String (byte (240 + c / 262144))
      (String (byte (128 + (c / 4096) mod 64))
         (String (byte (128 + (c / 64) mod 64)) (String (byte (128 + c mod 64)) ""))).

Definition simple_escape (c : ascii) : option ascii :=
  if Ascii.eqb c Text.dquote then Some Text.dquote
  else if Ascii.eqb c "\" then Some "\"%char
  else if Ascii.eqb c "/" then Some "/"%char
  else if Ascii.eqb c "b" then Some "008"%char
  else if Ascii.eqb c "f" then Some "012"%char
  else if Ascii.eqb c "n" then Some "010"%char
  else if Ascii.eqb c "r" then Some "013"%char
  else if Ascii.eqb c "t" then Some "009"%char
  else None.

(** [scanstring]: the text of a string literal whose opening quote is at
    [begin]; [s] starts after that quote, at position [p]. *)
Fixpoint scanstring (fuel : nat) (begin : Z) (acc : string) (s : string) (p : Z)
  : result (string * string * Z) :=
  match fuel with
  | O => fail "Unterminated string starting at" begin
  | S k =>
      match s with
      | EmptyString => fail "Unterminated string starting at" begin
      | String c rest =>
          if Ascii.eqb c Text.dquote then inr (acc, rest, p + 1)
          else if Ascii.eqb c "\" then
            match rest with
            | EmptyString => fail "Unterminated string starting at" begin
            | String e rest' =>
                if Ascii.eqb e "u" then
                  if (String.length rest' <=? 4)%nat
                  then fail "Invalid \uXXXX escape" (p + 1)
                  else
                    match hex4 rest' with
                    | None => fail "Invalid \uXXXX escape" (p + 1)
                    | Some hi =>
                        let after := drop 4 rest' in
                        let single := scanstring k begin (acc +:+ utf8 hi) after (p + 6) in
                        if (55296 <=? hi) && (hi <=? 56319)
                           && (7 <=? String.length after)%nat
                           && String.prefix "\u" after
                        then
                          match hex4 (drop 2 after) with
                          | None => fail "Invalid \uXXXX escape" (p + 7)
                          | Some lo =>
                              if (56320 <=? lo) && (lo <=? 57343) then
                                scanstring k begin
                                  (acc +:+ utf8 (65536 + (hi - 55296) * 1024 + (lo - 56320)))
                                  (drop 6 after) (p + 12)
                              else single
                          end
                        else single
                    end
                else
                  match simple_escape e with
                  | Some x => scanstring k begin (acc +:+ String x "") rest' (p + 2)
                  | None => fail "Invalid \escape" p
                  end
            end
          else if Text.code c <=? 31 then fail "Invalid control character at" p
          else scanstring k begin (acc +:+ String c "") rest (p + 1)
      end
  end.

Fixpoint take_digits (s : string) : string * string :=
  match s with
  | String c rest =>
      if Text.is_digit c then
        let '(ds, r) := take_digits rest in (String c ds, r)
      else ("", s)
  | EmptyString => ("", s)
  end.

Fixpoint digits_value (acc : Z) (ds : string) : Z :=
  match ds with
  | String c rest => digits_value (acc * 10 + Text.digit_value c) rest
  | EmptyString => acc
  end.

(** The integer digits of a number: a single [0], or a non-zero digit and
    the digits after it. *)
Definition integer_part (s : string) : option (string * string) :=
  match s with
  | String c rest =>
      if Ascii.eqb c "0" then Some ("0", rest)
      else if Text.is_digit c then Some (take_digits s)
      else None
  | EmptyString => None
  end.

(** [.digits], when a digit follows the point. *)
Definition fraction_part (s : string) : option (string * string) :=
  match s with
  | String dot (String d _ as rest) =>
      if Ascii.eqb dot "." && Text.is_digit d then Some (take_digits rest) else None
  | _ => None
  end.

(** [e], an optional sign and digits; nothing is read when no digit follows. *)
Definition exponent_part (s : string) : option (Z * string * nat) :=
  match s with
  | String e rest =>
      if Ascii.eqb e "e" || Ascii.eqb e "E" then
        let '(neg, signed, rest1) :=
          match rest with
          | String sg r =>
              if Ascii.eqb sg "-" then (true, 1%nat, r)
              else if Ascii.eqb sg "+" then (false, 1%nat, r)
              else (false, 0%nat, rest)
          | EmptyString => (false, 0%nat, rest)
          end in
        let '(ds, r) := take_digits rest1 in
        match ds with
        | EmptyString => None
        | _ => let v := digits_value 0 ds in
               Some (if neg then - v else v, r,
                     (1 + signed + String.length ds)%nat)
        end
      else None
  | EmptyString => None
  end.

(** [_match_number]: [None] stands for [StopIteration]. *)
Definition match_number (s : string) (p : Z) : option (Py.value * string * Z) :=
  let '(neg, s1, p1) :=
    match s with
    | String c rest => if Ascii.eqb c "-" then (true, rest, p + 1) else (false, s, p)
    | EmptyString => (false, s, p)
    end in
  match integer_part s1 with
  | None => None
  | Some (ids, r1) =>
      let p2 := p1 + Z.of_nat (String.length ids) in
      let '(fds, r2, p3, has_frac) :=
        match fraction_part r1 with
        | Some (fds, r2) => (fds, r2, p2 + 1 + Z.of_nat (String.length fds), true)
        | None => ("", r1, p2, false)
        end in
      let '(ex, r3, p4, has_exp) :=
        match exponent_part r2 with
        | Some (ex, r3, n) => (ex, r3, p3 + Z.of_nat n, true)
        | None => (0, r2, p3, false)
        end in
      if has_frac || has_exp then
        Some (Py.Float (PyFloat.of_decimal neg (digits_value 0 (ids +:+ fds))
                          (ex - Z.of_nat (String.length fds))), r3, p4)
      else
        let n := digits_value 0 ids in
        Some (Py.Int (if neg then - n else n), r3, p4)
  end.

(** The named constants, tried before a number. *)
Definition match_constant (s : string) (p : Z) : option (Py.value * string * Z) :=
  if String.prefix "null" s then Some (Py.None_, drop 4 s, p + 4)
  else if String.prefix "true" s then Some (Py.Bool true, drop 4 s, p + 4)
  else if String.prefix "false" s then Some (Py.Bool false, drop 5 s, p + 5)
  else if String.prefix "NaN" s then Some (Py.Float PyFloat.Nan, drop 3 s, p + 3)
  else if String.prefix "Infinity" s then
    Some (Py.Float (PyFloat.Inf false), drop 8 s, p + 8)
  else if String.prefix "-Infinity" s then
    Some (Py.Float (PyFloat.Inf true), drop 9 s, p + 9)
  else None.

(** [scan_once]: one JSON value starting at [p].  [parse_array] and
    [parse_object] are entered after the opening bracket and whitespace,
    before an element or a key. *)
Fixpoint scan_once (fuel : nat) (s : string) (p : Z) : result (Py.value * string * Z) :=
  match fuel with
  | O => fail "Expecting value" p
  | S k =>
      match s with
      | EmptyString => fail "Expecting value" p
      | String c rest =>
          if Ascii.eqb c Text.dquote then
            match scanstring (String.length rest) p "" rest (p + 1) with
            | inl e => inl e
            | inr (text, r, q) => inr (Py.Str text, r, q)
            end
          else if Ascii.eqb c "{" then
            let '(r, q) := skip_whitespace rest (p + 1) in
            match r with
            | String d r' =>
                if Ascii.eqb d "}" then inr (Py.Dict [], r', q + 1)
                else parse_object k [] r q
            | EmptyString => parse_object k [] r q
            end
          else if Ascii.eqb c "[" then
            let '(r, q) := skip_whitespace rest (p + 1) in
            match r with
            | String d r' =>
                if Ascii.eqb d "]" then inr (Py.List [], r', q + 1)
                else parse_array k [] r q
            | EmptyString => parse_array k [] r q
            end
          else
            match match_constant s p with
            | Some v => inr v
            | None =>
                match match_number s p with
                | Some v => inr v
                | None => fail "Expecting value" p
                end
            end
      end
  end

with parse_array (fuel : nat) (acc : list Py.value) (s : string) (p : Z)
  : result (Py.value * string * Z) :=
  match fuel with
  | O => fail "Expecting value" p
  | S k =>
      match scan_once k s p with
      | inl e => inl e
      | inr (v, r, q) =>
          let '(r1, q1) := skip_whitespace r q in
          match r1 with
          | String c r2 =>
              if Ascii.eqb c "]" then inr (Py.List (acc ++ [v]), r2, q1 + 1)
              else if Ascii.eqb c "," then
                let '(r3, q3) := skip_whitespace r2 (q1 + 1) in
                parse_array k (acc ++ [v]) r3 q3
              else fail "Expecting ',' delimiter" q1
          | EmptyString => fail "Expecting ',' delimiter" q1
          end
      end
  end

with parse_object (fuel : nat) (acc : list (string * Py.value)) (s : string) (p : Z)
  : result (Py.value * string * Z) :=
  match fuel with
  | O => fail "Expecting value" p
  | S k =>
      match s with
      | String c rest =>
          if Ascii.eqb c Text.dquote then
            match scanstring (String.length rest) p "" rest (p + 1) with
            | inl e => inl e
            | inr (key, r, q) =>
                let '(r1, q1) := skip_whitespace r q in
                match r1 with
                | String colon r2 =>
                    if Ascii.eqb colon ":" then
                      let '(r3, q3) := skip_whitespace r2 (q1 + 1) in
                      match scan_once k r3 q3 with
                      | inl e => inl e
                      | inr (v, r4, q4) =>
                          let '(r5, q5) := skip_whitespace r4 q4 in
                          match r5 with
                          | String d r6 =>
                              if Ascii.eqb d "}" then
                                inr (Py.Dict (Py.dict_set acc key v), r6, q5 + 1)
                              else if Ascii.eqb d "," then
                                let '(r7, q7) := skip_whitespace r6 (q5 + 1) in
                                parse_object k (Py.dict_set acc key v) r7 q7
                              else fail "Expecting ',' delimiter" q5
                          | EmptyString => fail "Expecting ',' delimiter" q5
                          end
                      end
                    else fail "Expecting ':' delimiter" q1
                | EmptyString => fail "Expecting ':' delimiter" q1
                end
            end
          else fail "Expecting property name enclosed in double quotes" p
      | EmptyString => fail "Expecting property name enclosed in double quotes" p
      end
  end.

(** [JSONDecoder.decode]: leading whitespace, one value, trailing
    whitespace, and nothing else. *)
Definition decode (s : string) : result Py.value :=
  let '(s0, p0) := skip_whitespace s 0 in
  match scan_once (2 * String.length s + 2) s0 p0 with
  | inl e => inl e
  | inr (v, r, q) =>
      let '(r1, q1) := skip_whitespace r q in
      match r1 with
      | EmptyString => inr v
      | _ => fail "Extra data" q1
      end
  end.

(** Line and column of a position, as [JSONDecodeError] computes them. *)
Fixpoint line_column (doc : string) (n : nat) (line col : Z) : Z * Z :=
  match n, doc with
  | S k, String c rest =>
      if Ascii.eqb c "010" then line_column rest k (line + 1) 1
      else line_column rest k line (col + 1)
  | _, _ => (line, col)
  end.

(** [str(e)] for a [JSONDecodeError] raised on the document [doc]. *)
Definition describe (doc : string) (e : error) : string :=
  let '(line, col) := line_column doc (Z.to_nat (pos e)) 1 1 in
  msg e +:+ ": line " +:+ Text.of_Z line +:+ " column " +:+ Text.of_Z col
        +:+ " (char " +:+ Text.of_Z (pos e) +:+ ")".

(** [json.loads(doc)]: the decoded value, or the description of the error. *)
Definition loads (doc : string) : string + Py.value :=
  match decode doc with
  | inl e => inl (describe doc e)
  | inr v => inr v
  end.

End Json.

(** ** Exceptions, the HTTP client and effects

    The response object and [raise_for_status] are those of [httpx] 0.28.1,
    the version that [run.py] installs. *)

Module Httpx.

(** The parts of an [httpx.Response] that the handlers and
    [raise_for_status] read.  [url] is the URL of the request as the client
    recorded it, [location] the [Location] header when there is one, [text]
    the body as text. *)
Record Response := {
  status_code : Z;
  reason_phrase : string;
  url : string;
  location : option string;
  text : string
}.

Inductive Method := GET | POST.

(** A call on the client: [client.get(url)] or [client.post(url)], with no
    body. *)
Record Request := { method : Method; target : string }.

Definition is_success (r : Response) : bool :=
  (200 <=? status_code r) && (status_code r <=? 299).

Definition has_redirect_location (r : Response) : bool :=
  ((status_code r =? 301) || (status_code r =? 302) || (status_code r =? 303)
   || (status_code r =? 307) || (status_code r =? 308))
  && match location r with Some _ => true | None => false end.

Definition error_type (r : Response) : string :=
  let status_class := status_code r / 100 in
  if status_class =? 1 then "Informational response"
  else if status_class =? 3 then "Redirect response"
  else if status_class =? 4 then "Client error"
  else if status_class =? 5 then "Server error"
  else "Invalid status code".

Definition newline : string := String "010" "".

(** The message of the [HTTPStatusError] that [raise_for_status] raises. *)
Definition status_error_message (r : Response) : string :=
  error_type r +:+ " '" +:+ Text.of_Z (status_code r) +:+ " " +:+ reason_phrase r
    +:+ "' for url '" +:+ url r +:+ "'" +:+ newline
    +:+ (if has_redirect_location r
         then "Redirect location: '" +:+ default "" (location r) +:+ "'" +:+ newline
         else "")
    +:+ "For more information check: https://developer.mozilla.org/en-US/docs/Web/HTTP/Status/"
    +:+ Text.of_Z (status_code r).

End Httpx.

(** The exceptions that can reach a handler, all of them instances of
    [Exception]: the [HTTPStatusError] of [raise_for_status], which carries
    the response; a failure of the transport ([httpx.TransportError] and the
    like: connection refused, timeout, unsupported URL); and the decoding
    error of [response.json()]. *)
Inductive exn :=
| HTTPStatusError (message : string) (response : Httpx.Response)
| TransportError (message : string)
| JSONDecodeError (message : string).

(** [str(e)] *)
Definition exn_str (e : exn) : string :=
  match e with
  | HTTPStatusError m _ => m
  | TransportError m => m
  | JSONDecodeError m => m
  end.

(** What a call on the client comes to: a response, or an exception raised
    by the client. *)
Inductive outcome :=
| Responded (r : Httpx.Response)
| Raised (e : exn).

(** The remote end as seen through [self.http_client]: it answers a request
    knowing the requests made before it. *)
Definition Client : Type := list Httpx.Request -> Httpx.Request -> outcome.

(** A coroutine of the server: it runs against the list of the calls made on
    the client so far, and either returns or raises. *)
Definition task (A : Type) : Type := list Httpx.Request -> (exn + A) * list Httpx.Request.

Definition ret {A} (a : A) : task A := fun calls => (inr a, calls).

Definition raise {A} (e : exn) : task A := fun calls => (inl e, calls).

Definition bind {A B} (c : task A) (k : A -> task B) : task B :=
  fun calls =>
    match c calls with
    | (inr a, calls') => k a calls'
    | (inl e, calls') => (inl e, calls')
    end.

Notation "'let*' x ':=' c 'in' k" := (bind c (fun x => k))
  (at level 10, x name, c at level 100, k at level 200, only parsing).

(** An [except] clause: [None] when the exception is not of its class. *)
Definition clause (A : Type) : Type := exn -> option (task A).

Definition except_HTTPStatusError {A} (h : exn -> Httpx.Response -> task A) : clause A :=
  fun e => match e with
           | HTTPStatusError _ r => Some (h e r)
           | _ => None
           end.

Definition except_Exception {A} (h : exn -> task A) : clause A :=
  fun e => Some (h e).

(** The bare [except:]. *)
Definition except_any {A} (h : task A) : clause A :=
  fun _ => Some h.

Fixpoint select {A} (clauses : list (clause A)) (e : exn) : option (task A) :=
  match clauses with
  | [] => None
  | c :: rest => match c e with
                 | Some h => Some h
                 | None => select rest e
                 end
  end.

(** [try: body] followed by [except] clauses: the first clause of a matching
    class handles the exception, and an exception raised by a clause is not
    handled by its siblings. *)
Definition try_ {A} (body : task A) (clauses : list (clause A)) : task A :=
  fun calls =>
    match body calls with
    | (inr a, calls') => (inr a, calls')
    | (inl e, calls') =>
        match select clauses e with
        | Some h => h calls'
        | None => (inl e, calls')
        end
    end.

(** [await client.get(url)] and [await client.post(url)]: one call on the
    client, recorded whether it is answered or raises. *)
Definition request (client : Client) (m : Httpx.Method) (url : string)
  : task Httpx.Response :=
  fun calls =>
    let req := {| Httpx.method := m; Httpx.target := url |} in
    match client calls req with
    | Responded r => (inr r, calls ++ [req])
    | Raised e => (inl e, calls ++ [req])
    end.

Definition get (client : Client) (url : string) : task Httpx.Response :=
  request client Httpx.GET url.

Definition post (client : Client) (url : string) : task Httpx.Response :=
  request client Httpx.POST url.

(** [response.raise_for_status()] *)
Definition raise_for_status (r : Httpx.Response) : task Httpx.Response :=
  if Httpx.is_success r then ret r
  else raise (HTTPStatusError (Httpx.status_error_message r) r).

(** [response.json()] *)
Definition json (r : Httpx.Response) : task Py.value :=
  match Json.loads (Httpx.text r) with
  | inr v => ret v
  | inl m => raise (JSONDecodeError m)
  end.

(** ** The MCP server of the [mcp] package

    The low-level [Server] of [mcp] 1.0.0, the version that [run.py] installs.
    It keeps its request handlers in a dictionary whose keys are the classes
    of requests; the key of a tool call is the class [CallToolRequest], named
    here by its name. *)

Module Mcp.

Record TextContent := { type : string; text : string }.

(** The parameters of a [CallToolRequest]: the name of the tool and the
    argument mapping, which may be missing. *)
Record CallToolRequest := {
  name : string;
  arguments : option (gmap string Py.value)
}.

Record CallToolResult := { content : list TextContent; isError : bool }.

(** A function given to the decorator [call_tool()]. *)
Definition tool_function : Type :=
  string -> gmap string Py.value -> task (list TextContent).

Definition request_handler : Type := CallToolRequest -> task CallToolResult.

Record Server := {
  server_name : string;
  request_handlers : gmap string request_handler
}.

(** [Server(name)], as far as tool calls go. *)
Definition new (n : string) : Server :=
  {| server_name := n; request_handlers := ∅ |}.

(** The handler that [call_tool()] builds around [func]: the function gets
    the name and the arguments of the request, and an exception it raises
    becomes an error result. *)
Definition wrap (func : tool_function) : request_handler :=
  fun req =>
    try_ (let* results := func (name req) (default ∅ (arguments req)) in
          ret {| content := results; isError := false |})
         [ except_Exception (fun e =>
             ret {| content := [ {| type := "text"; text := exn_str e |} ];
                    isError := true |}) ].

(** [@server.call_tool()] applied to [func]:
    [self.request_handlers[types.CallToolRequest] = handler]. *)
Definition call_tool (srv : Server) (func : tool_function) : Server :=
  {| server_name := server_name srv;
     request_handlers := <["CallToolRequest" := wrap func]> (request_handlers srv) |}.

(** The server on a tool call: the handler stored for [CallToolRequest]
    answers it; with no handler the method is not found. *)
Definition handle_call (srv : Server) (req : CallToolRequest)
  : option (task CallToolResult) :=
  match request_handlers srv !! "CallToolRequest" with
  | Some handler => Some (handler req)
  | None => None
  end.

End Mcp.

(** ** [main.py] *)

(** [os.getenv(key, default)] *)
Definition getenv (environ : gmap string string) (key fallback : string) : string :=
  default fallback (environ !! key).

(** [load_dotenv()]: the bindings of the [.env] file are added to the
    environment of the process, and a variable that is already set keeps its
    value. *)
Definition load_dotenv (os_environ dotenv : gmap string string) : gmap string string :=
  os_environ ∪ dotenv.

Section EpochMCPServer.

(** The environment of the process when the module is loaded, and the
    bindings of the [.env] file. *)
Variable os_environ : gmap string string.
Variable dotenv : gmap string string.

(** [self.http_client] *)
Variable http_client : Client.

Definition EPOCH_SERVER_URL : string :=
  getenv (load_dotenv os_environ dotenv) "EPOCH_SERVER_URL" "http://localhost:8080".

(** [[TextContent(type="text", text=t)]] *)
Definition text_result (t : string) : list Mcp.TextContent :=
  [ {| Mcp.type := "text"; Mcp.text := t |} ].

Definition handle_health_check (name : string) (arguments : gmap string Py.value)
  : task (list Mcp.TextContent) :=
  try_
    (let* response := get http_client (EPOCH_SERVER_URL +:+ "/health") in
     let* _ := raise_for_status response in
     let* result := json response in
     ret (text_result ("Health check successful: " +:+ Py.str result)))
    [ except_Exception (fun e =>
        ret (text_result ("Health check failed: " +:+ exn_str e))) ].

(** [error_detail], first the decoded body and, when that raises, the text
    of the body. *)
Definition error_detail (response : Httpx.Response) : task Py.value :=
  try_ (json response) [ except_any (ret (Py.Str (Httpx.text response))) ].

(** [epoch_id] is bound by the first statement of the [try] block, which
    cannot raise, and is read by the [except] clauses. *)
Definition handle_start_epoch (name : string) (arguments : gmap string Py.value)
  : task (list Mcp.TextContent) :=
  let epoch_id := default Py.None_ (arguments !! "epoch_id") in
  try_
    (if negb (Py.truthy epoch_id) then
       ret (text_result "Error: epoch_id is required")
     else
       let* response :=
         post http_client
           (EPOCH_SERVER_URL +:+ "/epochs/" +:+ Py.str epoch_id +:+ "/start") in
       let* _ := raise_for_status response in
       let* result := json response in
       ret (text_result ("Epoch " +:+ Py.str epoch_id +:+ " started successfully: "
                           +:+ Py.str result)))
    [ except_HTTPStatusError (fun e response =>
        let* detail := error_detail response in
        ret (text_result ("Failed to start epoch " +:+ Py.str epoch_id +:+ ": HTTP "
                            +:+ Text.of_Z (Httpx.status_code response) +:+ " - "
                            +:+ Py.str detail)));
      except_Exception (fun e =>
        ret (text_result ("Failed to start epoch " +:+ Py.str epoch_id +:+ ": "
                            +:+ exn_str e))) ].

Definition handle_distribute_subsidies (name : string) (arguments : gmap string Py.value)
  : task (list Mcp.TextContent) :=
  let epoch_id := default Py.None_ (arguments !! "epoch_id") in
  try_
    (if negb (Py.truthy epoch_id) then
       ret (text_result "Error: epoch_id is required")
     else
       let* response :=
         post http_client
           (EPOCH_SERVER_URL +:+ "/epochs/" +:+ Py.str epoch_id +:+ "/distribute") in
       let* _ := raise_for_status response in
       let* result := json response in
       ret (text_result ("Subsidies distributed for epoch " +:+ Py.str epoch_id +:+ ": "
                           +:+ Py.str result)))
    [ except_HTTPStatusError (fun e response =>
        let* detail := error_detail response in
        ret (text_result ("Failed to distribute subsidies for epoch " +:+ Py.str epoch_id
                            +:+ ": HTTP " +:+ Text.of_Z (Httpx.status_code response)
                            +:+ " - " +:+ Py.str detail)));
      except_Exception (fun e =>
        ret (text_result ("Failed to distribute subsidies for epoch " +:+ Py.str epoch_id
                            +:+ ": " +:+ exn_str e))) ].

(** [setup_tools]: the three functions are decorated with
    [@self.server.call_tool()] in this order. *)
Definition setup_tools (server : Mcp.Server) : Mcp.Server :=
  let server := Mcp.call_tool server handle_health_check in
  let server := Mcp.call_tool server handle_start_epoch in
  Mcp.call_tool server handle_distribute_subsidies.

(** [EpochMCPServer().server] *)
Definition server : Mcp.Server := setup_tools (Mcp.new "epoch-server-mcp").

(** A tool call delivered to the server. *)
Definition call (name : string) (arguments : gmap string Py.value)
  : option (task Mcp.CallToolResult) :=
  Mcp.handle_call server {| Mcp.name := name; Mcp.arguments := Some arguments |}.

End EpochMCPServer.

(** The three tools of the server and, for each, the function written for it. *)
Inductive tool := health_check | start_epoch | distribute_subsidies.

Definition tool_name (t : tool) : string :=
  match t with
  | health_check => "health_check"
  | start_epoch => "start_epoch"
  | distribute_subsidies => "distribute_subsidies"
  end.

Definition handler_of (t : tool) (os_environ dotenv : gmap string string)
  (http_client : Client) : Mcp.tool_function :=
  match t with
  | health_check => handle_health_check os_environ dotenv http_client
  | start_epoch => handle_start_epoch os_environ dotenv http_client
  | distribute_subsidies => handle_distribute_subsidies os_environ dotenv http_client
  end.

(** ** The routes of the specification and some remote ends *)

(** The request that the specification gives for each tool: [GET /health],
    [POST /epochs/{epoch_id}/start] and [POST /epochs/{epoch_id}/distribute],
    under the base URL. *)
Definition route (t : tool) (base : string) (epoch_id : Py.value) : Httpx.Request :=
  match t with
  | health_check =>
      {| Httpx.method := Httpx.GET; Httpx.target := base +:+ "/health" |}
  | start_epoch =>
      {| Httpx.method := Httpx.POST;
         Httpx.target := base +:+ "/epochs/" +:+ Py.str epoch_id +:+ "/start" |}
  | distribute_subsidies =>
      {| Httpx.method := Httpx.POST;
         Httpx.target := base +:+ "/epochs/" +:+ Py.str epoch_id +:+ "/distribute" |}
  end.

(** The value of the argument [epoch_id], [None] when there is none. *)
Definition epoch_id_of (arguments : gmap string Py.value) : Py.value :=
  default Py.None_ (arguments !! "epoch_id").

(** Whether an invocation gets past the check of its arguments. *)
Definition passes_validation (t : tool) (arguments : gmap string Py.value) : bool :=
  match t with
  | health_check => true
  | _ => Py.truthy (epoch_id_of arguments)
  end.

(** The detail that [start_epoch] and [distribute_subsidies] print for a
    failure status: the decoded body, or the text of the body when it does
    not decode. *)
Definition detail_of (r : Httpx.Response) : Py.value :=
  match Json.loads (Httpx.text r) with
  | inr v => v
  | inl _ => Py.Str (Httpx.text r)
  end.

(** A remote end that answers every request with the same status and body. *)
Definition answering (status : Z) (reason body : string) : Client :=
  fun _ req =>
    Responded {| Httpx.status_code := status; Httpx.reason_phrase := reason;
                 Httpx.url := Httpx.target req; Httpx.location := None;
                 Httpx.text := body |}.

(** A remote end that cannot be reached. *)
Definition unreachable : Client :=
  fun _ _ => Raised (TransportError "All connection attempts failed").

(** A remote end that behaves as [first] while no call was made and as
    [later] afterwards. *)
Definition first_then (first later : Client) : Client :=
  fun calls req =>
    match calls with
    | [] => first calls req
    | _ => later calls req
    end.

(** [s] between double quotes. *)
Definition quoted (s : string) : string :=
  String Text.dquote s +:+ String Text.dquote "".

(** The bodies [{"error": "boom"}], [{"status":"started"}] and
    [{"status": "ok"}]. *)
Definition body_error_boom : string := "{" +:+ quoted "error" +:+ ": " +:+ quoted "boom" +:+ "}".
Definition body_status_started : string := "{" +:+ quoted "status" +:+ ":" +:+ quoted "started" +:+ "}".
Definition body_status_ok : string := "{" +:+ quoted "status" +:+ ": " +:+ quoted "ok" +:+ "}".

(** The argument mapping [{"epoch_id": "42"}]. *)
Definition epoch_42 : gmap string Py.value := {[ "epoch_id" := Py.Str "42" ]}.

(** The text of the single text block of a result, if it is one. *)
Definition single_text (r : exn + list Mcp.TextContent) : option string :=
  match r with
  | inr [ {| Mcp.type := "text"; Mcp.text := t |} ] => Some t
  | _ => None
  end.

(** ** The texts of the handlers *)

(** The text of a success, as the f-strings of the three handlers build it
    from the epoch id and the decoded body. *)
Definition success_text (t : tool) (epoch_id result : Py.value) : string :=
  match t with
  | health_check => "Health check successful: " +:+ Py.str result
  | start_epoch =>
      "Epoch " +:+ Py.str epoch_id +:+ " started successfully: " +:+ Py.str result
  | distribute_subsidies =>
      "Subsidies distributed for epoch " +:+ Py.str epoch_id +:+ ": " +:+ Py.str result
  end.

(** The text of the clause [except Exception] of each handler, for an
    exception whose [str] is [description]. *)
Definition failure_text (t : tool) (epoch_id : Py.value) (description : string) : string :=
  match t with
  | health_check => "Health check failed: " +:+ description
  | start_epoch =>
      "Failed to start epoch " +:+ Py.str epoch_id +:+ ": " +:+ description
  | distribute_subsidies =>
      "Failed to distribute subsidies for epoch " +:+ Py.str epoch_id +:+ ": "
        +:+ description
  end.

(** The text for an [HTTPStatusError] that carries the response [r]:
    [health_check] has no clause for it and prints its message, the other two
    print the status code and the detail of the body. *)
Definition status_failure_text (t : tool) (epoch_id : Py.value) (message : string)
  (r : Httpx.Response) : string :=
  match t with
  | health_check => failure_text health_check epoch_id message
  | start_epoch =>
      "Failed to start epoch " +:+ Py.str epoch_id +:+ ": HTTP "
        +:+ Text.of_Z (Httpx.status_code r) +:+ " - " +:+ Py.str (detail_of r)
  | distribute_subsidies =>
      "Failed to distribute subsidies for epoch " +:+ Py.str epoch_id +:+ ": HTTP "
        +:+ Text.of_Z (Httpx.status_code r) +:+ " - " +:+ Py.str (detail_of r)
  end.

(** The text that a handler returns once its call on the client has come to
    the outcome [o]. *)
Definition text_of_outcome (t : tool) (epoch_id : Py.value) (o : outcome) : string :=
  match o with
  | Responded r =>
      if Httpx.is_success r then
        match Json.loads (Httpx.text r) with
        | inr v => success_text t epoch_id v
        | inl description => failure_text t epoch_id description
        end
      else status_failure_text t epoch_id (Httpx.status_error_message r) r
  | Raised (HTTPStatusError message r) => status_failure_text t epoch_id message r
  | Raised e => failure_text t epoch_id (exn_str e)
  end.

(** How the success text of each handler begins. *)
Definition success_opening (t : tool) : string :=
  match t with
  | health_check => "Health check successful: "
  | start_epoch => "Epoch "
  | distribute_subsidies => "Subsidies distributed for epoch "
  end.

(** ** The tool descriptors of [setup_tools] *)

Module McpTypes.

(** [mcp.types.Tool]: the input schema is the dictionary given in the source. *)
Record Tool := { name : string; description : string; inputSchema : Py.value }.

End McpTypes.

Definition health_check_tool : McpTypes.Tool :=
  {| McpTypes.name := "health_check";
     McpTypes.description := "Check the health status of the epoch server";
     McpTypes.inputSchema :=
       Py.Dict [ ("type", Py.Str "object");
                 ("properties", Py.Dict []);
                 ("required", Py.List []) ] |}.

Definition start_epoch_tool : McpTypes.Tool :=
  {| McpTypes.name := "start_epoch";
     McpTypes.description := "Start a new epoch for the lending platform";
     McpTypes.inputSchema :=
       Py.Dict [ ("type", Py.Str "object");
                 ("properties",
                  Py.Dict [ ("epoch_id",
                             Py.Dict [ ("type", Py.Str "string");
                                       ("description",
                                        Py.Str "The ID of the epoch to start") ]) ]);
                 ("required", Py.List [ Py.Str "epoch_id" ]) ] |}.

Definition distribute_subsidies_tool : McpTypes.Tool :=
  {| McpTypes.name := "distribute_subsidies";
     McpTypes.description := "Distribute subsidies for an epoch";
     McpTypes.inputSchema :=
       Py.Dict [ ("type", Py.Str "object");
                 ("properties",
                  Py.Dict [ ("epoch_id",
                             Py.Dict [ ("type", Py.Str "string");
                                       ("description",
                                        Py.Str "The ID of the epoch to distribute subsidies for") ]) ]);
                 ("required", Py.List [ Py.Str "epoch_id" ]) ] |}.

(** The list that the function assigned to [self.server.list_tools] returns. *)
Definition list_tools : list McpTypes.Tool :=
  [ health_check_tool; start_epoch_tool; distribute_subsidies_tool ].

(** [d.get(key)] on a dictionary value. *)
Definition dict_get (d : Py.value) (key : string) : option Py.value :=
  match d with
  | Py.Dict items => snd <$> List.find (fun kv => String.eqb (fst kv) key) items
  | _ => None
  end.

(** The names listed under ["required"] in an input schema. *)
Definition required_parameters (schema : Py.value) : list string :=
  match dict_get schema "required" with
  | Some (Py.List items) =>
      omap (fun v => match v with Py.Str s => Some s | _ => None end) items
  | _ => []
  end.

(** The names declared under ["properties"] in an input schema. *)
Definition declared_parameters (schema : Py.value) : list string :=
  match dict_get schema "properties" with
  | Some (Py.Dict items) => map fst items
  | _ => []
  end.

(** The descriptor that [list_tools] holds under a name. *)
Definition find_tool (name : string) : option McpTypes.Tool :=
  List.find (fun d => String.eqb (McpTypes.name d) name) list_tools.

(** The request of a tool call as the server receives it. *)
Definition tool_call (name : string) (arguments : option (gmap string Py.value))
  : Mcp.CallToolRequest :=
  {| Mcp.name := name; Mcp.arguments := arguments |}.

(** * Properties *)

(** ** The fuel of the decoder

    The scanner consumes at least one character before each recursive call,
    and its result does not depend on its fuel once the fuel is above twice
    the length of the text. *)

Section DecoderFuel.

Local Open Scope nat_scope.

(** Skipping whitespace leaves a suffix of the text. *)
Lemma skip_whitespace_length (s : string) (p : Z) :
  String.length (fst (Json.skip_whitespace s p)) <= String.length s.
Proof.
  revert p. induction s as [|c s IH]; intros p; simpl; [lia|].
  destruct (Json.is_whitespace c); simpl; [|lia].
  specialize (IH (p + 1)%Z). lia.
Qed.

Lemma drop_length (n : nat) (s : string) :
  String.length (Json.drop n s) <= String.length s.
Proof.
  revert s. induction n as [|n IH]; intros s; destruct s; simpl; try lia.
  specialize (IH s). lia.
Qed.

(** A string literal that is read takes at least its closing quote. *)
Lemma scanstring_length (fuel : nat) (begin : Z) (acc s : string) (p : Z)
  (text r : string) (q : Z) :
  Json.scanstring fuel begin acc s p = inr (text, r, q) ->
  String.length r < String.length s.
Proof.
  revert acc s p. induction fuel as [|k IH]; intros acc s p; simpl; [discriminate|].
  destruct s as [|c rest]; [discriminate|].
  intros Hs. repeat case_match; try discriminate; simplify_eq/=; try lia;
    try (apply IH in Hs; simpl in *;
         repeat match goal with
                | |- context [Json.drop ?n ?s] => pose proof (drop_length n s); 
                    generalize dependent (Json.drop n s); intros
                | H : context [Json.drop ?n ?s] |- _ => pose proof (drop_length n s); 
                    generalize dependent (Json.drop n s); intros
                end; simpl in *; lia).
Qed.


Lemma take_digits_length (s : string) :
  String.length (snd (Json.take_digits s)) <= String.length s.
Proof.
  induction s as [|c s IH]; simpl; [lia|].
  destruct (Text.is_digit c); simpl; [|lia].
  destruct (Json.take_digits s); simpl in *. lia.
Qed.

Lemma integer_part_length (s ds r : string) :
  Json.integer_part s = Some (ds, r) -> String.length r < String.length s.
Proof.
  destruct s as [|c s]; simpl; [discriminate|].
  destruct (Ascii.eqb c "0").
  - intros [= <- <-]. lia.
  - destruct (Text.is_digit c); [|discriminate].
    pose proof (take_digits_length s). destruct (Json.take_digits s).
    intros [= <- <-]. simpl in *. lia.
Qed.

Lemma fraction_part_length (s ds r : string) :
  Json.fraction_part s = Some (ds, r) -> String.length r <= String.length s.
Proof.
  destruct s as [|c [|d s]]; simpl; try discriminate.
  destruct (Ascii.eqb c "." && Text.is_digit d); [|discriminate].
  destruct (Text.is_digit d).
  - pose proof (take_digits_length s). destruct (Json.take_digits s).
    intros [= <- <-]. simpl in *. lia.
  - intros [= <- <-]. simpl. lia.
Qed.

Lemma exponent_part_length (s r : string) (ex : Z) (n : nat) :
  Json.exponent_part s = Some (ex, r, n) -> String.length r <= String.length s.
Proof.
  destruct s as [|c s]; simpl; [discriminate|].
  destruct (Ascii.eqb c "e" || Ascii.eqb c "E"); [|discriminate].
  destruct s as [|sg s'].
  - simpl. discriminate.
  - destruct (Ascii.eqb sg "-"); [|destruct (Ascii.eqb sg "+")].
    + pose proof (take_digits_length s'). destruct (Json.take_digits s') as [ds r'].
      destruct ds; [discriminate|]. intros [= <- <- <-]. simpl in *. lia.
    + pose proof (take_digits_length s'). destruct (Json.take_digits s') as [ds r'].
      destruct ds; [discriminate|]. intros [= <- <- <-]. simpl in *. lia.
    + pose proof (take_digits_length (String sg s')).
      destruct (Json.take_digits (String sg s')) as [ds r'].
      destruct ds; [discriminate|]. intros [= <- <- <-]. simpl in *. lia.
Qed.

(** A number that is read takes at least one character. *)
Lemma match_number_length (s : string) (p : Z) (v : Py.value) (r : string) (q : Z) :
  Json.match_number s p = Some (v, r, q) -> String.length r < String.length s.
Proof.
  unfold Json.match_number.
  set (sign := match s with
               | String c rest => if Ascii.eqb c "-" then (true, rest, (p + 1)%Z) else (false, s, p)
               | EmptyString => (false, s, p)
               end).
  assert (Hsign : String.length (snd (fst sign)) <= String.length s).
  { subst sign. destruct s as [|c s]; simpl; [lia|]. destruct (Ascii.eqb c "-"); simpl; lia. }
  destruct sign as [[neg s1] p1]. simpl in Hsign.
  destruct (Json.integer_part s1) as [[ids r1]|] eqn:Hint; [|discriminate].
  apply integer_part_length in Hint.
  destruct (Json.fraction_part r1) as [[fds r2]|] eqn:Hfrac.
  - apply fraction_part_length in Hfrac.
    destruct (Json.exponent_part r2) as [[[ex r3] n]|] eqn:Hexp.
    + apply exponent_part_length in Hexp. simpl. intros [= <- <- <-]. lia.
    + simpl. intros [= <- <- <-]. lia.
  - destruct (Json.exponent_part r1) as [[[ex r3] n]|] eqn:Hexp.
    + apply exponent_part_length in Hexp. simpl. intros [= <- <- <-]. lia.
    + simpl. intros [= <- <- <-]. lia.
Qed.

Lemma drop_prefix_length (a : ascii) (x s : string) (n : nat) :
  String.prefix (String a x) s = true ->
  String.length (Json.drop (S n) s) < String.length s.
Proof.
  destruct s as [|c s]; [discriminate|]. intros _.
  change (Json.drop (S n) (String c s)) with (Json.drop n s).
  pose proof (drop_length n s). simpl. lia.
Qed.

(** A constant that is read takes at least one character. *)
Lemma match_constant_length (s : string) (p : Z) (v : Py.value) (r : string) (q : Z) :
  Json.match_constant s p = Some (v, r, q) -> String.length r < String.length s.
Proof.
  unfold Json.match_constant.
  repeat case_match; try discriminate; intros [= <- <- <-];
    match goal with
    | Hp : String.prefix _ s = true |- _ =>
        first [ apply (drop_prefix_length _ _ s 3 Hp)
              | apply (drop_prefix_length _ _ s 4 Hp)
              | apply (drop_prefix_length _ _ s 2 Hp)
              | apply (drop_prefix_length _ _ s 7 Hp)
              | apply (drop_prefix_length _ _ s 8 Hp) ]
    end.
Qed.

Ltac ws_facts H :=
  repeat match type of H with
         | context [Json.skip_whitespace ?s ?p] =>
             let L := fresh "Hws" in
             pose proof (skip_whitespace_length s p) as L;
             destruct (Json.skip_whitespace s p) eqn:?; cbn [fst] in L
         end.

Ltac length_facts IHscan IHarr IHobj :=
  repeat match goal with
         | H : Json.scanstring _ _ _ _ _ = inr _ |- _ => apply scanstring_length in H
         | H : Json.match_number _ _ = Some _ |- _ => apply match_number_length in H
         | H : Json.match_constant _ _ = Some _ |- _ => apply match_constant_length in H
         | H : Json.scan_once _ _ _ = inr _ |- _ => apply IHscan in H
         | H : Json.parse_array _ _ _ _ = inr _ |- _ => apply IHarr in H
         | H : Json.parse_object _ _ _ _ = inr _ |- _ => apply IHobj in H
         end.

(** A value that is read takes at least one character. *)
Lemma scan_progress (k : nat) :
  (forall s p v r q, Json.scan_once k s p = inr (v, r, q) -> String.length r < String.length s)
  /\ (forall acc s p v r q,
        Json.parse_array k acc s p = inr (v, r, q) -> String.length r < String.length s)
  /\ (forall acc s p v r q,
        Json.parse_object k acc s p = inr (v, r, q) -> String.length r < String.length s).
Proof.
  induction k as [|k (IHscan & IHarr & IHobj)].
  - repeat split; intros; discriminate.
  - repeat split.
    + intros s p v r q H. cbn [Json.scan_once] in H.
      destruct s as [|c rest]; [discriminate|].
      ws_facts H.
      repeat case_match; try discriminate; simplify_eq;
        length_facts IHscan IHarr IHobj; cbn [String.length] in *; lia.
    + intros acc s p v r q H. cbn [Json.parse_array] in H.
      destruct (Json.scan_once k s p) as [|[[v0 r0] q0]] eqn:Hscan; [discriminate|].
      repeat (ws_facts H; try case_match; try discriminate); simplify_eq;
        length_facts IHscan IHarr IHobj; cbn [String.length] in *; lia.
    + intros acc s p v r q H. cbn [Json.parse_object] in H.
      destruct s as [|c rest]; [discriminate|].
      destruct (Ascii.eqb c Text.dquote); [|discriminate].
      destruct (Json.scanstring (String.length rest) p "" rest (p + 1))
        as [|[[key r0] q0]] eqn:Hkey; [discriminate|].
      repeat (ws_facts H; try case_match; try discriminate); simplify_eq;
        length_facts IHscan IHarr IHobj; cbn [String.length] in *; lia.
Qed.

Lemma scan_once_length (k : nat) (s : string) (p : Z) (v : Py.value) (r : string) (q : Z) :
  Json.scan_once k s p = inr (v, r, q) -> String.length r < String.length s.
Proof. apply (scan_progress k). Qed.

Ltac stable_step IHscan IHarr IHobj k2 :=
  first
    [ reflexivity
    | match goal with
      | |- Json.scan_once _ ?s ?p = Json.scan_once _ ?s ?p =>
          apply IHscan; cbn [String.length] in *; lia
      | |- Json.parse_array _ ?a ?s ?p = Json.parse_array _ ?a ?s ?p =>
          apply IHarr; cbn [String.length] in *; lia
      | |- Json.parse_object _ ?a ?s ?p = Json.parse_object _ ?a ?s ?p =>
          apply IHobj; cbn [String.length] in *; lia
      | |- context [Json.skip_whitespace ?s ?p] =>
          let L := fresh "Hws" in
          pose proof (skip_whitespace_length s p) as L;
          destruct (Json.skip_whitespace s p) eqn:?; cbn [fst] in L
      | |- context [match Json.scanstring ?f ?b ?a ?s ?p with _ => _ end] =>
          let Hs := fresh "Hstr" in
          destruct (Json.scanstring f b a s p) as [?|[[? ?] ?]] eqn:Hs;
          [| apply scanstring_length in Hs]
      | |- context [match Json.scan_once _ ?s ?p with _ => _ end] =>
          let Hs := fresh "Hscan" in
          rewrite (IHscan k2 s p) by (cbn [String.length] in *; lia);
          destruct (Json.scan_once k2 s p) as [?|[[? ?] ?]] eqn:Hs;
          [| apply scan_once_length in Hs]
      | |- context [if ?b then _ else _] => destruct b eqn:?
      | |- context [match ?x with EmptyString => _ | String _ _ => _ end] => destruct x
      | |- context [match ?x with Some _ => _ | None => _ end] => destruct x
      end ].

(** Above twice the length of the text, the fuel does not matter. *)
Lemma fuel_stable (k1 : nat) :
  (forall k2 s p,
     2 * String.length s + 1 <= k1 -> 2 * String.length s + 1 <= k2 ->
     Json.scan_once k1 s p = Json.scan_once k2 s p)
  /\ (forall k2 acc s p,
        2 * String.length s + 2 <= k1 -> 2 * String.length s + 2 <= k2 ->
        Json.parse_array k1 acc s p = Json.parse_array k2 acc s p)
  /\ (forall k2 acc s p,
        2 * String.length s + 2 <= k1 -> 2 * String.length s + 2 <= k2 ->
        Json.parse_object k1 acc s p = Json.parse_object k2 acc s p).
Proof.
  induction k1 as [|k1 (IHscan & IHarr & IHobj)].
  - repeat split; intros; lia.
  - repeat split.
    + intros [|k2] s p H1 H2; [lia|]. cbn [Json.scan_once].
      repeat stable_step IHscan IHarr IHobj k2.
    + intros [|k2] acc s p H1 H2; [lia|]. cbn [Json.parse_array].
      repeat stable_step IHscan IHarr IHobj k2.
    + intros [|k2] acc s p H1 H2; [lia|]. cbn [Json.parse_object].
      repeat stable_step IHscan IHarr IHobj k2.
Qed.

(** The fuel that [decode] gives is enough: with more fuel the scanner
    returns the same. *)
Lemma decode_fuel (s s0 : string) (p : Z) (extra : nat) :
  String.length s0 <= String.length s ->
  Json.scan_once (2 * String.length s + 2 + extra) s0 p
  = Json.scan_once (2 * String.length s + 2) s0 p.
Proof. intros H. apply (fuel_stable _); lia. Qed.

(** Above the length of the text, the fuel of [scanstring] does not matter. *)
Lemma scanstring_fuel (k1 k2 : nat) (begin : Z) (acc s : string) (p : Z) :
  String.length s <= k1 -> String.length s <= k2 ->
  Json.scanstring k1 begin acc s p = Json.scanstring k2 begin acc s p.
Proof.
  revert k2 acc s p. induction k1 as [|k1 IH]; intros k2 acc s p H1 H2.
  - destruct s; [|simpl in H1; lia]. destruct k2; reflexivity.
  - destruct k2 as [|k2]; [destruct s; [reflexivity | simpl in H2; lia]|].
    cbn [Json.scanstring].
    destruct s as [|c rest]; [reflexivity|]. cbn [String.length] in *.
    repeat first
      [ reflexivity
      | match goal with
        | |- Json.scanstring _ ?b ?a ?s ?p = Json.scanstring _ ?b ?a ?s ?p =>
            apply IH;
            repeat match goal with
                   | |- context [Json.drop ?n ?s] =>
                       pose proof (drop_length n s);
                       generalize dependent (Json.drop n s); intros
                   | H : context [Json.drop ?n ?s] |- _ =>
                       pose proof (drop_length n s);
                       generalize dependent (Json.drop n s); intros
                   end; cbn [String.length] in *; lia
        | |- context [if ?b then _ else _] => destruct b eqn:?
        | |- context [match ?x with EmptyString => _ | String _ _ => _ end] => destruct x
        | |- context [match ?x with Some _ => _ | None => _ end] => destruct x
        end ].
Qed.

End DecoderFuel.

(** ** Running a handler *)

Ltac unfold_handlers :=
  unfold handler_of, handle_health_check, handle_start_epoch,
    handle_distribute_subsidies, error_detail, try_, select, except_HTTPStatusError,
    except_Exception, except_any, bind, get, post, request,
    raise_for_status, json, ret, raise, text_result, epoch_id_of in *.

(** Case analysis along the run of a handler: the check of the argument, the
    outcome of the call, the status, and the decoding of the body. *)
Ltac run_cases :=
  repeat match goal with
         | |- context [Py.truthy ?v] => destruct (Py.truthy v) eqn:?; simpl
         | |- context [match ?c ?calls ?req with Responded _ => _ | Raised _ => _ end] =>
             destruct (c calls req) as [?r|?e] eqn:?; simpl
         | |- context [Httpx.is_success ?r] => destruct (Httpx.is_success r) eqn:?; simpl
         | |- context [Json.loads ?s] => destruct (Json.loads s) as [?m|?v] eqn:?; simpl
         | |- context [match ?e with HTTPStatusError _ _ => _ | TransportError _ => _
                                | JSONDecodeError _ => _ end] =>
             is_var e; destruct e; simpl
         end.

Lemma prefix_app (x b : string) : String.prefix x (x +:+ b) = true.
Proof.
  induction x as [|c x IH]; simpl.
  - destruct b; reflexivity.
  - destruct (ascii_dec c c); [exact IH | congruence].
Qed.

Lemma contains_unfold (x h : string) :
  Text.contains x h =
  if String.prefix x h then true
  else match h with
       | EmptyString => false
       | String _ rest => Text.contains x rest
       end.
Proof. destruct h; reflexivity. Qed.

Lemma append_empty_r (x : string) : x +:+ "" = x.
Proof.
  induction x as [|c x IH]; [reflexivity|].
  change (String c x +:+ "") with (String c (x +:+ "")). rewrite IH. reflexivity.
Qed.

Lemma append_assoc (a b c : string) : (a +:+ b) +:+ c = a +:+ b +:+ c.
Proof.
  induction a as [|x a IH]; [reflexivity|].
  change ((String x a +:+ b) +:+ c) with (String x ((a +:+ b) +:+ c)).
  rewrite IH. reflexivity.
Qed.

Lemma contains_here (x b : string) : Text.contains x (x +:+ b) = true.
Proof. rewrite contains_unfold, prefix_app. reflexivity. Qed.

Lemma contains_refl (x : string) : Text.contains x x = true.
Proof. rewrite <- (append_empty_r x) at 2. apply contains_here. Qed.

Lemma contains_skip (x a b : string) :
  Text.contains x b = true -> Text.contains x (a +:+ b) = true.
Proof.
  intros H. induction a as [|c a IH]; [exact H|].
  rewrite contains_unfold.
  change (String c a +:+ b) with (String c (a +:+ b)).
  destruct (String.prefix x (String c (a +:+ b))); [reflexivity | exact IH].
Qed.

(** Looks for a part of a text that is put together with [+:+]. *)
Ltac find_part :=
  rewrite ?append_assoc;
  repeat first [ apply contains_refl | apply contains_here | apply contains_skip ].

(** [load_dotenv] gives a variable the value it has in the environment of
    the process and, failing that, the one of the [.env] file. *)
Lemma load_dotenv_lookup (os_environ dotenv : gmap string string) (key : string) :
  load_dotenv os_environ dotenv !! key =
  match os_environ !! key with
  | Some v => Some v
  | None => dotenv !! key
  end.
Proof.
  unfold load_dotenv. rewrite lookup_union.
  destruct (os_environ !! key), (dotenv !! key); reflexivity.
Qed.

(** ** Validation of the arguments *)

(** C4: for [start_epoch] and [distribute_subsidies], when the argument
    mapping has no [epoch_id] or its [epoch_id] is the empty string, the
    handler returns the single text block ["Error: epoch_id is required"] and
    makes no HTTP call: the list of calls is left as it was. *)
Theorem missing_epoch_id_short_circuits
  (t : tool) (os_environ dotenv : gmap string string) (client : Client)
  (name : string) (arguments : gmap string Py.value) (calls : list Httpx.Request) :
  t <> health_check ->
  arguments !! "epoch_id" = None \/ arguments !! "epoch_id" = Some (Py.Str "") ->
  handler_of t os_environ dotenv client name arguments calls
  = (inr [ {| Mcp.type := "text"; Mcp.text := "Error: epoch_id is required" |} ], calls).
Proof.
  intros Ht Harg.
  destruct t; [congruence | |]; unfold_handlers;
    destruct Harg as [-> | ->]; reflexivity.
Qed.

Lemma missing_epoch_id_short_circuits_witness :
  start_epoch <> health_check /\
  ((∅ : gmap string Py.value) !! "epoch_id" = None
   \/ (∅ : gmap string Py.value) !! "epoch_id" = Some (Py.Str "")) /\
  handler_of start_epoch ∅ ∅ (answering 200 "OK" body_status_ok) "start_epoch" ∅ []
  = (inr [ {| Mcp.type := "text"; Mcp.text := "Error: epoch_id is required" |} ], []).
Proof.
  split; [discriminate|]. split; [left; reflexivity|].
  apply missing_epoch_id_short_circuits; [discriminate | left; reflexivity].
Defined.

(** ** The handler as the boundary of errors *)


(** ** The request *)

(** The calls of a handler whose arguments pass the check: the calls made
    before and one more, on the route of the tool. *)
Lemma calls_of_valid_invocation
  (t : tool) (os_environ dotenv : gmap string string) (client : Client)
  (name : string) (arguments : gmap string Py.value) (calls : list Httpx.Request) :
  passes_validation t arguments = true ->
  snd (handler_of t os_environ dotenv client name arguments calls)
  = calls ++ [ route t (EPOCH_SERVER_URL os_environ dotenv) (epoch_id_of arguments) ].
Proof.
  intros Hvalid.
  destruct t; unfold passes_validation in Hvalid; unfold_handlers; simpl;
    try rewrite Hvalid; simpl; run_cases; reflexivity.
Qed.

(** C7: an invocation that passes validation makes exactly one call on the
    client, the one of its route: [GET base + "/health"] for [health_check],
    [POST base + "/epochs/" + epoch_id + "/start"] for [start_epoch] and
    [POST base + "/epochs/" + epoch_id + "/distribute"] for
    [distribute_subsidies], where [base] is [EPOCH_SERVER_URL].  For an
    [epoch_id] that is a string, [Py.str] is the string itself. *)
Theorem one_request_on_the_route
  (t : tool) (os_environ dotenv : gmap string string) (client : Client)
  (name : string) (arguments : gmap string Py.value) (calls : list Httpx.Request) :
  passes_validation t arguments = true ->
  snd (handler_of t os_environ dotenv client name arguments calls)
  = calls ++ [ route t (EPOCH_SERVER_URL os_environ dotenv) (epoch_id_of arguments) ].
Proof. apply calls_of_valid_invocation. Qed.

Lemma one_request_on_the_route_witness :
  passes_validation start_epoch epoch_42 = true /\
  snd (handler_of start_epoch ∅ ∅ unreachable "start_epoch" epoch_42 [])
  = [ {| Httpx.method := Httpx.POST;
         Httpx.target := "http://localhost:8080/epochs/42/start" |} ].
Proof.
  split; [reflexivity|].
  exact (one_request_on_the_route start_epoch ∅ ∅ unreachable "start_epoch" epoch_42 []
           eq_refl).
Defined.

(** ** The base URL *)

(** [EPOCH_SERVER_URL] set to the empty string is not replaced by the
    default: the base URL is empty and [health_check] calls [GET /health]. *)
Lemma empty_base_url_is_kept :
  load_dotenv {[ "EPOCH_SERVER_URL" := "" ]} ∅ !! "EPOCH_SERVER_URL" = Some ""
  /\ EPOCH_SERVER_URL {[ "EPOCH_SERVER_URL" := "" ]} ∅ = ""
  /\ String.eqb (EPOCH_SERVER_URL {[ "EPOCH_SERVER_URL" := "" ]} ∅)
                "http://localhost:8080" = false
  /\ snd (handle_health_check {[ "EPOCH_SERVER_URL" := "" ]} ∅ unreachable
            "health_check" ∅ [])
     = [ {| Httpx.method := Httpx.GET; Httpx.target := "/health" |} ].
Proof. repeat split; vm_compute; reflexivity. Qed.

(** C3, amended: when [EPOCH_SERVER_URL] is unset the base URL of the
    request is [http://localhost:8080]; when it is set, to the empty string
    or to anything else, its value is the base URL, for all three routes. *)
Theorem base_url_is_the_configured_value
  (t : tool) (os_environ dotenv : gmap string string) (client : Client)
  (name : string) (arguments : gmap string Py.value) (calls : list Httpx.Request)
  (setting : option string) :
  load_dotenv os_environ dotenv !! "EPOCH_SERVER_URL" = setting ->
  passes_validation t arguments = true ->
  snd (handler_of t os_environ dotenv client name arguments calls)
  = calls ++ [ route t match setting with
                       | None => "http://localhost:8080"
                       | Some value => value
                       end
                 (epoch_id_of arguments) ].
Proof.
  intros Hset Hvalid.
  rewrite calls_of_valid_invocation by exact Hvalid.
  unfold EPOCH_SERVER_URL, getenv. rewrite Hset.
  destruct setting; reflexivity.
Qed.

Lemma base_url_is_the_configured_value_witness :
  load_dotenv ∅ {[ "EPOCH_SERVER_URL" := "http://x" ]} !! "EPOCH_SERVER_URL"
  = Some "http://x"
  /\ passes_validation distribute_subsidies epoch_42 = true
  /\ snd (handler_of distribute_subsidies ∅ {[ "EPOCH_SERVER_URL" := "http://x" ]}
            unreachable "distribute_subsidies" epoch_42 [])
     = [ {| Httpx.method := Httpx.POST;
            Httpx.target := "http://x/epochs/42/distribute" |} ].
Proof.
  split; [reflexivity|]. split; [reflexivity|].
  exact (base_url_is_the_configured_value distribute_subsidies ∅
           {[ "EPOCH_SERVER_URL" := "http://x" ]} unreachable "distribute_subsidies"
           epoch_42 [] (Some "http://x") eq_refl eq_refl).
Defined.

(** ** Success *)

Lemma loads_status_started :
  Json.loads body_status_started = inr (Py.Dict [ ("status", Py.Str "started") ]).
Proof. vm_compute. reflexivity. Qed.

(** C8: [start_epoch] with [{"epoch_id": "42"}], when the remote answers
    [POST /epochs/42/start] with status 200 and the body
    [{"status":"started"}], returns the text
    ["Epoch 42 started successfully: {'status': 'started'}"]. *)
Theorem start_epoch_42_started
  (os_environ dotenv : gmap string string) (client : Client) (name : string)
  (calls : list Httpx.Request) (r : Httpx.Response) :
  client calls (route start_epoch (EPOCH_SERVER_URL os_environ dotenv) (Py.Str "42"))
  = Responded r ->
  Httpx.status_code r = 200 ->
  Httpx.text r = body_status_started ->
  fst (handle_start_epoch os_environ dotenv client name epoch_42 calls)
  = inr [ {| Mcp.type := "text";
             Mcp.text := "Epoch 42 started successfully: {'status': 'started'}" |} ].
Proof.
  intros Hcall Hstatus Hbody.
  unfold_handlers.
  change (epoch_42 !! "epoch_id") with (Some (Py.Str "42")).
  simpl. unfold route in Hcall. simpl in Hcall. rewrite Hcall.
  unfold Httpx.is_success. rewrite Hstatus. simpl.
  rewrite Hbody, loads_status_started. reflexivity.
Qed.

Lemma start_epoch_42_started_witness :
  answering 200 "OK" body_status_started []
    (route start_epoch (EPOCH_SERVER_URL {[ "EPOCH_SERVER_URL" := "http://x" ]} ∅)
       (Py.Str "42"))
  = Responded {| Httpx.status_code := 200; Httpx.reason_phrase := "OK";
                 Httpx.url := "http://x/epochs/42/start"; Httpx.location := None;
                 Httpx.text := body_status_started |}
  /\ fst (handle_start_epoch {[ "EPOCH_SERVER_URL" := "http://x" ]} ∅
            (answering 200 "OK" body_status_started) "start_epoch" epoch_42 [])
     = inr [ {| Mcp.type := "text";
                Mcp.text := "Epoch 42 started successfully: {'status': 'started'}" |} ].
Proof.
  split; [reflexivity|].
  exact (start_epoch_42_started {[ "EPOCH_SERVER_URL" := "http://x" ]} ∅
           (answering 200 "OK" body_status_started) "start_epoch" [] _
           eq_refl eq_refl eq_refl).
Defined.

(** ** Failures *)

(** C9: when the call completes with a success status and the body cannot be
    decoded as JSON, the handler returns its failure text, which ends with
    the description of the decoding error, and not a success message; it
    returns, so no exception leaves it. *)
Theorem undecodable_success_body_is_a_failure
  (t : tool) (os_environ dotenv : gmap string string) (client : Client)
  (name : string) (arguments : gmap string Py.value) (calls : list Httpx.Request)
  (r : Httpx.Response) (description : string) :
  passes_validation t arguments = true ->
  client calls (route t (EPOCH_SERVER_URL os_environ dotenv) (epoch_id_of arguments))
  = Responded r ->
  Httpx.is_success r = true ->
  Json.loads (Httpx.text r) = inl description ->
  fst (handler_of t os_environ dotenv client name arguments calls)
  = inr [ {| Mcp.type := "text";
             Mcp.text :=
               match t with
               | health_check => "Health check failed: "
               | start_epoch =>
                   "Failed to start epoch " +:+ Py.str (epoch_id_of arguments) +:+ ": "
               | distribute_subsidies =>
                   "Failed to distribute subsidies for epoch "
                     +:+ Py.str (epoch_id_of arguments) +:+ ": "
               end +:+ description |} ].
Proof.
  intros Hvalid Hcall Hok Hbody.
  destruct t; unfold passes_validation, route in *; unfold_handlers; simpl in *;
    try rewrite Hvalid; simpl; rewrite Hcall; simpl; rewrite Hok; simpl;
    rewrite Hbody; simpl; rewrite ?append_assoc; reflexivity.
Qed.

Lemma undecodable_success_body_is_a_failure_witness :
  passes_validation start_epoch epoch_42 = true
  /\ Httpx.is_success {| Httpx.status_code := 200; Httpx.reason_phrase := "OK";
                         Httpx.url := "http://localhost:8080/epochs/42/start";
                         Httpx.location := None; Httpx.text := "boom" |} = true
  /\ Json.loads "boom" = inl "Expecting value: line 1 column 1 (char 0)"
  /\ fst (handler_of start_epoch ∅ ∅ (answering 200 "OK" "boom") "start_epoch"
            epoch_42 [])
     = inr [ {| Mcp.type := "text";
                Mcp.text := "Failed to start epoch 42: Expecting value: line 1 column 1 (char 0)" |} ].
Proof.
  split; [reflexivity|]. split; [reflexivity|]. split; [reflexivity|].
  exact (undecodable_success_body_is_a_failure start_epoch ∅ ∅
           (answering 200 "OK" "boom") "start_epoch" epoch_42 [] _ _
           eq_refl eq_refl eq_refl eq_refl).
Defined.

(** What [health_check] returns on a failure status: the message of the
    [HTTPStatusError], which names the status, its reason phrase and the URL,
    and nothing of the body. *)
Lemma health_check_http_error
  (os_environ dotenv : gmap string string) (client : Client) (name : string)
  (arguments : gmap string Py.value) (calls : list Httpx.Request) (r : Httpx.Response) :
  client calls (route health_check (EPOCH_SERVER_URL os_environ dotenv) Py.None_)
  = Responded r ->
  Httpx.is_success r = false ->
  fst (handle_health_check os_environ dotenv client name arguments calls)
  = inr (text_result ("Health check failed: " +:+ Httpx.status_error_message r)).
Proof.
  intros Hcall Hfail. unfold route in Hcall. unfold_handlers. simpl.
  rewrite Hcall. simpl. rewrite Hfail. reflexivity.
Qed.

(** What [start_epoch] and [distribute_subsidies] return on a failure status:
    the status code and the detail of the body. *)
Lemma epoch_tool_http_error
  (t : tool) (os_environ dotenv : gmap string string) (client : Client)
  (name : string) (arguments : gmap string Py.value) (calls : list Httpx.Request)
  (r : Httpx.Response) :
  t <> health_check ->
  passes_validation t arguments = true ->
  client calls (route t (EPOCH_SERVER_URL os_environ dotenv) (epoch_id_of arguments))
  = Responded r ->
  Httpx.is_success r = false ->
  fst (handler_of t os_environ dotenv client name arguments calls)
  = inr (text_result
           ((match t with
             | distribute_subsidies => "Failed to distribute subsidies for epoch "
             | _ => "Failed to start epoch "
             end +:+ Py.str (epoch_id_of arguments) +:+ ": HTTP ")
            +:+ Text.of_Z (Httpx.status_code r) +:+ " - " +:+ Py.str (detail_of r))).
Proof.
  intros Ht Hvalid Hcall Hfail.
  destruct t; [congruence | |];
    unfold passes_validation, route, detail_of in *; unfold_handlers; simpl in *;
    rewrite Hvalid; simpl; rewrite Hcall; simpl; rewrite Hfail; simpl;
    destruct (Json.loads (Httpx.text r)); simpl;
    rewrite ?append_assoc; reflexivity.
Qed.

(** On a failure status the text of [start_epoch] and [distribute_subsidies]
    contains the status code and the detail of the body. *)
Lemma epoch_tool_http_error_contains
  (t : tool) (os_environ dotenv : gmap string string) (client : Client)
  (name : string) (arguments : gmap string Py.value) (calls : list Httpx.Request)
  (r : Httpx.Response) :
  t <> health_check ->
  passes_validation t arguments = true ->
  client calls (route t (EPOCH_SERVER_URL os_environ dotenv) (epoch_id_of arguments))
  = Responded r ->
  Httpx.is_success r = false ->
  exists text,
    fst (handler_of t os_environ dotenv client name arguments calls)
    = inr (text_result text)
    /\ Text.contains (Text.of_Z (Httpx.status_code r)) text = true
    /\ Text.contains (Py.str (detail_of r)) text = true.
Proof.
  intros Ht Hvalid Hcall Hfail.
  eexists. split; [apply epoch_tool_http_error; eassumption|].
  split.
  - find_part.
  - find_part.
Qed.

(** ** Determinism *)

(** The text that a handler returns is a function of the tool, of the
    argument mapping and of the outcome of the HTTP call.  Two invocations
    with the same arguments whose calls come to the same outcome (the same
    response: status, reason phrase, URL, headers and body, or the same
    exception) return the same result, whatever calls were made before and
    whatever the remote would answer to other requests. *)
Theorem same_outcome_same_text
  (t : tool) (os_environ dotenv : gmap string string) (client1 client2 : Client)
  (name1 name2 : string) (arguments : gmap string Py.value)
  (calls1 calls2 : list Httpx.Request) :
  client1 calls1 (route t (EPOCH_SERVER_URL os_environ dotenv) (epoch_id_of arguments))
  = client2 calls2 (route t (EPOCH_SERVER_URL os_environ dotenv) (epoch_id_of arguments)) ->
  fst (handler_of t os_environ dotenv client1 name1 arguments calls1)
  = fst (handler_of t os_environ dotenv client2 name2 arguments calls2).
Proof.
  intros Hsame.
  destruct t; unfold route in Hsame; unfold_handlers; simpl in *;
    try (destruct (Py.truthy (default Py.None_ (arguments !! "epoch_id")));
         simpl; [|reflexivity]);
    rewrite Hsame; run_cases; reflexivity.
Qed.

Lemma same_outcome_same_text_witness :
  answering 200 "OK" body_status_started []
    (route start_epoch (EPOCH_SERVER_URL ∅ ∅) (epoch_id_of epoch_42))
  = first_then unreachable (answering 200 "OK" body_status_started)
      [ {| Httpx.method := Httpx.GET; Httpx.target := "http://localhost:8080/health" |} ]
      (route start_epoch (EPOCH_SERVER_URL ∅ ∅) (epoch_id_of epoch_42))
  /\ fst (handler_of start_epoch ∅ ∅ (answering 200 "OK" body_status_started)
            "start_epoch" epoch_42 [])
     = fst (handler_of start_epoch ∅ ∅
              (first_then unreachable (answering 200 "OK" body_status_started))
              "start_epoch" epoch_42
              [ {| Httpx.method := Httpx.GET;
                   Httpx.target := "http://localhost:8080/health" |} ]).
Proof.
  split; [reflexivity|].
  exact (same_outcome_same_text start_epoch ∅ ∅ _ _ "start_epoch" "start_epoch"
           epoch_42 [] _ eq_refl).
Defined.

(** For [start_epoch] and [distribute_subsidies] the status code and the body
    of the response are all that the text depends on. *)
Lemma epoch_tool_same_status_and_body
  (t : tool) (os_environ dotenv : gmap string string) (client1 client2 : Client)
  (name1 name2 : string) (arguments : gmap string Py.value)
  (calls1 calls2 : list Httpx.Request) (r1 r2 : Httpx.Response) :
  t <> health_check ->
  client1 calls1 (route t (EPOCH_SERVER_URL os_environ dotenv) (epoch_id_of arguments))
  = Responded r1 ->
  client2 calls2 (route t (EPOCH_SERVER_URL os_environ dotenv) (epoch_id_of arguments))
  = Responded r2 ->
  Httpx.status_code r1 = Httpx.status_code r2 ->
  Httpx.text r1 = Httpx.text r2 ->
  fst (handler_of t os_environ dotenv client1 name1 arguments calls1)
  = fst (handler_of t os_environ dotenv client2 name2 arguments calls2).
Proof.
  intros Ht H1 H2 Hstatus Hbody.
  assert (Hok : Httpx.is_success r1 = Httpx.is_success r2)
    by (unfold Httpx.is_success; rewrite Hstatus; reflexivity).
  destruct t; [congruence | |]; unfold route in *; unfold_handlers; simpl in *;
    (destruct (Py.truthy (default Py.None_ (arguments !! "epoch_id")));
     simpl; [|reflexivity]);
    rewrite H1, H2; simpl; rewrite Hok;
    destruct (Httpx.is_success r2); simpl; rewrite ?Hstatus, ?Hbody;
    run_cases; reflexivity.
Qed.

(** ** Dispatch *)

(** Each [@self.server.call_tool()] stores its handler under the same key, so
    after [setup_tools] the server answers every tool call, whatever the name
    of the tool, with the function decorated last. *)
Lemma call_runs_distribute_subsidies
  (os_environ dotenv : gmap string string) (client : Client)
  (name : string) (arguments : gmap string Py.value) :
  call os_environ dotenv client name arguments
  = Some (Mcp.wrap (handle_distribute_subsidies os_environ dotenv client)
            {| Mcp.name := name; Mcp.arguments := Some arguments |}).
Proof.
  unfold call, Mcp.handle_call, server, setup_tools, Mcp.call_tool. simpl.
  rewrite lookup_insert_eq. reflexivity.
Qed.

(** C1, at an input where the code departs from it: a call of [health_check]
    with no arguments against a healthy remote is answered by the handler of
    [distribute_subsidies], with ["Error: epoch_id is required"] and no HTTP
    call, where [handle_health_check] would have called [GET /health] and
    reported the health of the remote. *)
Theorem health_check_call_is_misrouted :
  option_map (fun run => run [])
    (call ∅ ∅ (answering 200 "OK" body_status_ok) (tool_name health_check) ∅)
  = Some (inr {| Mcp.content := [ {| Mcp.type := "text";
                                     Mcp.text := "Error: epoch_id is required" |} ];
                 Mcp.isError := false |}, [])
  /\ handler_of health_check ∅ ∅ (answering 200 "OK" body_status_ok)
       (tool_name health_check) ∅ []
     = (inr [ {| Mcp.type := "text";
                 Mcp.text := "Health check successful: {'status': 'ok'}" |} ],
        [ {| Httpx.method := Httpx.GET;
             Httpx.target := "http://localhost:8080/health" |} ]).
Proof.
  split.
  - rewrite call_runs_distribute_subsidies. vm_compute. reflexivity.
  - vm_compute. reflexivity.
Qed.

(** ** The body of a failed health check *)

(** C2, at an input where the code departs from it: on status 500 with the
    body [{"error": "boom"}], [start_epoch] and [distribute_subsidies] print
    the status and the decoded body, and [health_check] prints the message of
    the status error, which has ["500"] in it and not ["boom"]. *)
Theorem health_check_omits_json_error_body :
  let remote := answering 500 "Internal Server Error" body_error_boom in
  let health := "Health check failed: Server error '500 Internal Server Error' "
                  +:+ "for url 'http://localhost:8080/health'" +:+ Httpx.newline
                  +:+ "For more information check: "
                  +:+ "https://developer.mozilla.org/en-US/docs/Web/HTTP/Status/500" in
  single_text (fst (handle_health_check ∅ ∅ remote "health_check" ∅ [])) = Some health
  /\ Text.contains "500" health = true
  /\ Text.contains "boom" health = false
  /\ single_text (fst (handle_start_epoch ∅ ∅ remote "start_epoch" epoch_42 []))
     = Some "Failed to start epoch 42: HTTP 500 - {'error': 'boom'}"
  /\ single_text (fst (handle_distribute_subsidies ∅ ∅ remote "distribute_subsidies"
                         epoch_42 []))
     = Some "Failed to distribute subsidies for epoch 42: HTTP 500 - {'error': 'boom'}".
Proof. repeat split; vm_compute; reflexivity. Qed.

(** C6, at an input where the code departs from it: on status 500 with the
    plain text body [boom], [start_epoch] and [distribute_subsidies] fall
    back to the text of the body, and [health_check] prints the message of
    the status error, which has ["500"] in it and not ["boom"]. *)
Theorem health_check_omits_plain_error_body :
  let remote := answering 500 "Internal Server Error" "boom" in
  let health := "Health check failed: Server error '500 Internal Server Error' "
                  +:+ "for url 'http://localhost:8080/health'" +:+ Httpx.newline
                  +:+ "For more information check: "
                  +:+ "https://developer.mozilla.org/en-US/docs/Web/HTTP/Status/500" in
  Json.loads "boom" = inl "Expecting value: line 1 column 1 (char 0)"
  /\ single_text (fst (handle_health_check ∅ ∅ remote "health_check" ∅ [])) = Some health
  /\ Text.contains "500" health = true
  /\ Text.contains "boom" health = false
  /\ single_text (fst (handle_start_epoch ∅ ∅ remote "start_epoch" epoch_42 []))
     = Some "Failed to start epoch 42: HTTP 500 - boom"
  /\ single_text (fst (handle_distribute_subsidies ∅ ∅ remote "distribute_subsidies"
                         epoch_42 []))
     = Some "Failed to distribute subsidies for epoch 42: HTTP 500 - boom".
Proof. repeat split; vm_compute; reflexivity. Qed.

(** * Further properties of the handlers and of the server *)

(** ** A handler as a function of the outcome of its call *)

(** A handler either stops at the check of its arguments, with no call, or
    makes the call of its route and returns the text of the outcome. *)
Lemma handler_run
  (t : tool) (os_environ dotenv : gmap string string) (client : Client)
  (name : string) (arguments : gmap string Py.value) (calls : list Httpx.Request) :
  handler_of t os_environ dotenv client name arguments calls
  = if passes_validation t arguments then
      (inr (text_result
              (text_of_outcome t (epoch_id_of arguments)
                 (client calls
                    (route t (EPOCH_SERVER_URL os_environ dotenv)
                       (epoch_id_of arguments))))),
       calls ++ [ route t (EPOCH_SERVER_URL os_environ dotenv) (epoch_id_of arguments) ])
    else (inr (text_result "Error: epoch_id is required"), calls).
Proof.
  destruct t; unfold passes_validation, route, text_of_outcome, status_failure_text,
    failure_text, success_text, detail_of; unfold_handlers; simpl;
    run_cases; reflexivity.
Qed.

(** The handler that [call_tool()] builds around a handler of this server
    turns its text into a result whose error flag is not set. *)
Lemma wrap_run
  (t : tool) (os_environ dotenv : gmap string string) (client : Client)
  (req : Mcp.CallToolRequest) (calls : list Httpx.Request) :
  Mcp.wrap (handler_of t os_environ dotenv client) req calls
  = let arguments := default ∅ (Mcp.arguments req) in
    let target := route t (EPOCH_SERVER_URL os_environ dotenv) (epoch_id_of arguments) in
    if passes_validation t arguments then
      (inr {| Mcp.content :=
                text_result (text_of_outcome t (epoch_id_of arguments) (client calls target));
              Mcp.isError := false |},
       calls ++ [ target ])
    else
      (inr {| Mcp.content := text_result "Error: epoch_id is required";
              Mcp.isError := false |},
       calls).
Proof.
  unfold Mcp.wrap, try_, bind. rewrite handler_run. simpl.
  destruct (passes_validation t (default ∅ (Mcp.arguments req))); reflexivity.
Qed.

(** The handler that the server holds for tool calls after [setup_tools]. *)
Lemma server_handler
  (os_environ dotenv : gmap string string) (client : Client)
  (req : Mcp.CallToolRequest) :
  Mcp.handle_call (server os_environ dotenv client) req
  = Some (Mcp.wrap (handler_of distribute_subsidies os_environ dotenv client) req).
Proof.
  unfold Mcp.handle_call, server, setup_tools, Mcp.call_tool. simpl.
  rewrite lookup_insert_eq. reflexivity.
Qed.

(** ** Registration and dispatch *)

(** X1: [setup_tools] changes one entry of the table of request handlers, the
    one of [CallToolRequest], and leaves it holding the handler built around
    [handle_distribute_subsidies], the function decorated last; the entries of
    all other classes of requests are as they were. *)
Theorem setup_tools_sets_one_handler
  (os_environ dotenv : gmap string string) (client : Client)
  (srv : Mcp.Server) (key : string) :
  Mcp.request_handlers (setup_tools os_environ dotenv client srv) !! key
  = if decide (key = "CallToolRequest")
    then Some (Mcp.wrap (handle_distribute_subsidies os_environ dotenv client))
    else Mcp.request_handlers srv !! key.
Proof.
  unfold setup_tools, Mcp.call_tool. simpl.
  case_decide as Hkey.
  - subst key. apply lookup_insert_eq.
  - rewrite !lookup_insert_ne by congruence. reflexivity.
Qed.

(** X2: whatever the name of the tool in a call, the server makes at most one
    request, and it is the one of [distribute_subsidies]: a call whose
    [epoch_id] is truthy adds [POST base/epochs/{epoch_id}/distribute] to the
    calls, any other call adds nothing.  No call reaches [GET /health] or
    [POST .../start]. *)
Theorem server_requests_only_distribute
  (os_environ dotenv : gmap string string) (client : Client)
  (req : Mcp.CallToolRequest) (calls : list Httpx.Request) :
  exists run,
    Mcp.handle_call (server os_environ dotenv client) req = Some run
    /\ snd (run calls)
       = let epoch_id := epoch_id_of (default ∅ (Mcp.arguments req)) in
         if Py.truthy epoch_id
         then calls ++ [ {| Httpx.method := Httpx.POST;
                            Httpx.target :=
                              EPOCH_SERVER_URL os_environ dotenv +:+ "/epochs/"
                                +:+ Py.str epoch_id +:+ "/distribute" |} ]
         else calls.
Proof.
  eexists. split; [apply server_handler|].
  rewrite wrap_run. simpl.
  destruct (Py.truthy (epoch_id_of (default ∅ (Mcp.arguments req)))); reflexivity.
Qed.


(** X4: a tool call that carries no argument mapping is handled as one with
    an empty mapping: whatever its name, [health_check] included, the server
    answers ["Error: epoch_id is required"] and makes no HTTP call. *)
Theorem call_without_arguments_is_rejected
  (os_environ dotenv : gmap string string) (client : Client)
  (name : string) (calls : list Httpx.Request) :
  exists run,
    Mcp.handle_call (server os_environ dotenv client) (tool_call name None) = Some run
    /\ run calls
       = (inr {| Mcp.content := [ {| Mcp.type := "text";
                                     Mcp.text := "Error: epoch_id is required" |} ];
                 Mcp.isError := false |}, calls).
Proof.
  eexists. split; [apply server_handler|].
  rewrite wrap_run. reflexivity.
Qed.

(** ** The check of the arguments *)

(** X5: [start_epoch] and [distribute_subsidies] test [epoch_id] for
    truthiness, not for being a string: any falsy value, such as [0],
    [false], [null], an empty list or an empty object, is rejected like a
    missing one, with the text ["Error: epoch_id is required"] and no HTTP
    call. *)
Theorem falsy_epoch_id_is_rejected
  (t : tool) (os_environ dotenv : gmap string string) (client : Client)
  (name : string) (arguments : gmap string Py.value) (calls : list Httpx.Request) :
  t <> health_check ->
  Py.truthy (epoch_id_of arguments) = false ->
  handler_of t os_environ dotenv client name arguments calls
  = (inr [ {| Mcp.type := "text"; Mcp.text := "Error: epoch_id is required" |} ], calls).
Proof.
  intros Ht Hfalsy. rewrite handler_run.
  destruct t; [congruence | |]; simpl; rewrite Hfalsy; reflexivity.
Qed.

Lemma falsy_epoch_id_is_rejected_witness :
  distribute_subsidies <> health_check
  /\ Py.truthy (epoch_id_of {[ "epoch_id" := Py.Int 0 ]}) = false
  /\ handler_of distribute_subsidies ∅ ∅ (answering 200 "OK" body_status_ok)
       "distribute_subsidies" {[ "epoch_id" := Py.Int 0 ]} []
     = (inr [ {| Mcp.type := "text"; Mcp.text := "Error: epoch_id is required" |} ], []).
Proof.
  split; [discriminate|]. split; [reflexivity|].
  apply falsy_epoch_id_is_rejected; [discriminate | reflexivity].
Defined.

(** X6: a handler makes no call when its arguments fail the check and exactly
    one call, on its route, when they pass; the calls made before are kept in
    their order.  No outcome leads to a second call. *)
Theorem calls_made_by_a_handler
  (t : tool) (os_environ dotenv : gmap string string) (client : Client)
  (name : string) (arguments : gmap string Py.value) (calls : list Httpx.Request) :
  snd (handler_of t os_environ dotenv client name arguments calls)
  = if passes_validation t arguments
    then calls ++ [ route t (EPOCH_SERVER_URL os_environ dotenv) (epoch_id_of arguments) ]
    else calls.
Proof.
  rewrite handler_run. destruct (passes_validation t arguments); reflexivity.
Qed.

(** ** The three outcomes of the call *)

(** X7: when the remote answers with a status from 200 to 299 and a body that
    decodes as JSON, the handler returns its success text: the decoded body
    as [str()] prints it and, for [start_epoch] and [distribute_subsidies],
    the epoch id. *)
Theorem success_on_2xx
  (t : tool) (os_environ dotenv : gmap string string) (client : Client)
  (name : string) (arguments : gmap string Py.value) (calls : list Httpx.Request)
  (r : Httpx.Response) (result : Py.value) :
  passes_validation t arguments = true ->
  client calls (route t (EPOCH_SERVER_URL os_environ dotenv) (epoch_id_of arguments))
  = Responded r ->
  200 <= Httpx.status_code r <= 299 ->
  Json.loads (Httpx.text r) = inr result ->
  fst (handler_of t os_environ dotenv client name arguments calls)
  = inr [ {| Mcp.type := "text";
             Mcp.text :=
               match t with
               | health_check => "Health check successful: " +:+ Py.str result
               | start_epoch =>
                   "Epoch " +:+ Py.str (epoch_id_of arguments)
                     +:+ " started successfully: " +:+ Py.str result
               | distribute_subsidies =>
                   "Subsidies distributed for epoch " +:+ Py.str (epoch_id_of arguments)
                     +:+ ": " +:+ Py.str result
               end |} ].
Proof.
  intros Hvalid Hcall Hstatus Hbody.
  rewrite handler_run, Hvalid, Hcall. unfold text_of_outcome, Httpx.is_success.
  replace ((200 <=? Httpx.status_code r) && (Httpx.status_code r <=? 299)) with true
    by (symmetry; apply andb_true_intro; split; apply Z.leb_le; lia).
  rewrite Hbody. destruct t; reflexivity.
Qed.

Lemma success_on_2xx_witness :
  passes_validation distribute_subsidies epoch_42 = true
  /\ 200 <= 299 <= 299
  /\ Json.loads body_status_ok = inr (Py.Dict [ ("status", Py.Str "ok") ])
  /\ fst (handler_of distribute_subsidies ∅ ∅ (answering 299 "" body_status_ok)
            "distribute_subsidies" epoch_42 [])
     = inr [ {| Mcp.type := "text";
                Mcp.text := "Subsidies distributed for epoch 42: {'status': 'ok'}" |} ].
Proof.
  split; [reflexivity|]. split; [lia|]. split; [vm_compute; reflexivity|].
  refine (success_on_2xx distribute_subsidies ∅ ∅ (answering 299 "" body_status_ok)
            "distribute_subsidies" epoch_42 [] _ (Py.Dict [ ("status", Py.Str "ok") ])
            eq_refl eq_refl _ _); [simpl; lia | vm_compute; reflexivity].
Defined.

(** X8: when the client raises instead of answering (connection refused,
    timeout, unsupported URL), the handler returns its failure text with the
    description of the exception, and the attempt counts as its one call. *)
Theorem transport_failure_is_reported
  (t : tool) (os_environ dotenv : gmap string string) (client : Client)
  (name : string) (arguments : gmap string Py.value) (calls : list Httpx.Request)
  (description : string) :
  passes_validation t arguments = true ->
  client calls (route t (EPOCH_SERVER_URL os_environ dotenv) (epoch_id_of arguments))
  = Raised (TransportError description) ->
  handler_of t os_environ dotenv client name arguments calls
  = (inr [ {| Mcp.type := "text";
              Mcp.text :=
                match t with
                | health_check => "Health check failed: " +:+ description
                | start_epoch =>
                    "Failed to start epoch " +:+ Py.str (epoch_id_of arguments)
                      +:+ ": " +:+ description
                | distribute_subsidies =>
                    "Failed to distribute subsidies for epoch "
                      +:+ Py.str (epoch_id_of arguments) +:+ ": " +:+ description
                end |} ],
     calls ++ [ route t (EPOCH_SERVER_URL os_environ dotenv) (epoch_id_of arguments) ]).
Proof.
  intros Hvalid Hcall.
  rewrite handler_run, Hvalid, Hcall. destruct t; reflexivity.
Qed.

Lemma transport_failure_is_reported_witness :
  passes_validation health_check ∅ = true
  /\ unreachable [] (route health_check (EPOCH_SERVER_URL ∅ ∅) (epoch_id_of ∅))
     = Raised (TransportError "All connection attempts failed")
  /\ handler_of health_check ∅ ∅ unreachable "health_check" ∅ []
     = (inr [ {| Mcp.type := "text";
                 Mcp.text := "Health check failed: All connection attempts failed" |} ],
        [ {| Httpx.method := Httpx.GET;
             Httpx.target := "http://localhost:8080/health" |} ]).
Proof.
  split; [reflexivity|]. split; [reflexivity|].
  exact (transport_failure_is_reported health_check ∅ ∅ unreachable "health_check" ∅ []
           "All connection attempts failed" eq_refl eq_refl).
Defined.



(** X10: for all three tools, the text returned for a response whose status
    is outside 200 to 299 contains the status code in decimal. *)
Theorem failure_status_is_in_the_text
  (t : tool) (os_environ dotenv : gmap string string) (client : Client)
  (name : string) (arguments : gmap string Py.value) (calls : list Httpx.Request)
  (r : Httpx.Response) :
  passes_validation t arguments = true ->
  client calls (route t (EPOCH_SERVER_URL os_environ dotenv) (epoch_id_of arguments))
  = Responded r ->
  Httpx.status_code r < 200 \/ 299 < Httpx.status_code r ->
  exists text,
    fst (handler_of t os_environ dotenv client name arguments calls)
    = inr [ {| Mcp.type := "text"; Mcp.text := text |} ]
    /\ Text.contains (Text.of_Z (Httpx.status_code r)) text = true.
Proof.
  intros Hvalid Hcall Hstatus.
  rewrite handler_run, Hvalid, Hcall. unfold text_of_outcome, Httpx.is_success.
  replace ((200 <=? Httpx.status_code r) && (Httpx.status_code r <=? 299)) with false
    by (symmetry; apply andb_false_iff; rewrite !Z.leb_gt; lia).
  eexists. split; [reflexivity|].
  destruct t; unfold status_failure_text, failure_text, Httpx.status_error_message;
    find_part.
Qed.

Lemma failure_status_is_in_the_text_witness :
  passes_validation health_check ∅ = true
  /\ (404 < 200 \/ 299 < 404)
  /\ exists text,
       fst (handler_of health_check ∅ ∅ (answering 404 "Not Found" "") "health_check" ∅ [])
       = inr [ {| Mcp.type := "text"; Mcp.text := text |} ]
       /\ Text.contains (Text.of_Z 404) text = true.
Proof.
  split; [reflexivity|]. split; [right; lia|].
  refine (failure_status_is_in_the_text health_check ∅ ∅ (answering 404 "Not Found" "")
            "health_check" ∅ [] _ eq_refl eq_refl _). right. simpl. lia.
Defined.

(** X11: every text that [start_epoch] and [distribute_subsidies] return for
    arguments that pass the check contains the epoch id as given, whether the
    call succeeds, fails with a status or raises. *)
Theorem epoch_id_is_in_every_text
  (t : tool) (os_environ dotenv : gmap string string) (client : Client)
  (name : string) (arguments : gmap string Py.value) (calls : list Httpx.Request) :
  t <> health_check ->
  passes_validation t arguments = true ->
  exists text,
    fst (handler_of t os_environ dotenv client name arguments calls)
    = inr [ {| Mcp.type := "text"; Mcp.text := text |} ]
    /\ Text.contains (Py.str (epoch_id_of arguments)) text = true.
Proof.
  intros Ht Hvalid.
  rewrite handler_run, Hvalid.
  eexists. split; [reflexivity|].
  unfold text_of_outcome.
  destruct t; [congruence | |];
    (destruct (client calls _) as [r|[m r|m|m]];
     [ destruct (Httpx.is_success r); [destruct (Json.loads (Httpx.text r))|] | | | ]);
    unfold success_text, failure_text, status_failure_text; find_part.
Qed.

Lemma epoch_id_is_in_every_text_witness :
  start_epoch <> health_check
  /\ passes_validation start_epoch epoch_42 = true
  /\ exists text,
       fst (handler_of start_epoch ∅ ∅ unreachable "start_epoch" epoch_42 [])
       = inr [ {| Mcp.type := "text"; Mcp.text := text |} ]
       /\ Text.contains (Py.str (epoch_id_of epoch_42)) text = true.
Proof.
  split; [discriminate|]. split; [reflexivity|].
  apply epoch_id_is_in_every_text; [discriminate | reflexivity].
Defined.

(** X12: a handler returns a text that begins like its success text only
    when the remote answered with a status from 200 to 299 and a body that
    decodes as JSON: no failure is told as a success. *)
Theorem success_text_only_after_2xx
  (t : tool) (os_environ dotenv : gmap string string) (client : Client)
  (name : string) (arguments : gmap string Py.value) (calls : list Httpx.Request)
  (text : string) :
  fst (handler_of t os_environ dotenv client name arguments calls)
  = inr [ {| Mcp.type := "text"; Mcp.text := text |} ] ->
  String.prefix (success_opening t) text = true ->
  exists r result,
    client calls (route t (EPOCH_SERVER_URL os_environ dotenv) (epoch_id_of arguments))
    = Responded r
    /\ 200 <= Httpx.status_code r <= 299
    /\ Json.loads (Httpx.text r) = inr result.
Proof.
  intros Hrun Hprefix. rewrite handler_run in Hrun.
  destruct (passes_validation t arguments); simpl in Hrun;
    injection Hrun as Htext; subst text;
    [| destruct t; simpl in Hprefix; discriminate].
  unfold text_of_outcome in Hprefix.
  destruct (client calls _) as [r|[m r|m|m]];
    [ destruct (Httpx.is_success r) eqn:Hok;
      [ destruct (Json.loads (Httpx.text r)) as [m|v] eqn:Hbody |] | | | ];
    try (destruct t; simpl in Hprefix; discriminate).
  exists r, v. split; [reflexivity|]. split; [|exact Hbody].
  unfold Httpx.is_success in Hok. apply andb_prop in Hok as [Hlo Hhi].
  apply Z.leb_le in Hlo, Hhi. lia.
Qed.

Lemma success_text_only_after_2xx_witness :
  fst (handler_of health_check ∅ ∅ (answering 200 "OK" body_status_ok) "health_check" ∅ [])
  = inr [ {| Mcp.type := "text";
             Mcp.text := "Health check successful: {'status': 'ok'}" |} ]
  /\ String.prefix (success_opening health_check)
       "Health check successful: {'status': 'ok'}" = true
  /\ exists r result,
       answering 200 "OK" body_status_ok []
         (route health_check (EPOCH_SERVER_URL ∅ ∅) (epoch_id_of ∅))
       = Responded r
       /\ 200 <= Httpx.status_code r <= 299
       /\ Json.loads (Httpx.text r) = inr result.
Proof.
  assert (Hrun : fst (handler_of health_check ∅ ∅ (answering 200 "OK" body_status_ok)
                        "health_check" ∅ [])
                 = inr [ {| Mcp.type := "text";
                            Mcp.text := "Health check successful: {'status': 'ok'}" |} ])
    by (vm_compute; reflexivity).
  split; [exact Hrun|]. split; [reflexivity|].
  exact (success_text_only_after_2xx health_check ∅ ∅ (answering 200 "OK" body_status_ok)
           "health_check" ∅ [] _ Hrun eq_refl).
Defined.

(** ** The base URL and the route *)

(** X13: the base URL is the value of [EPOCH_SERVER_URL] in the environment
    of the process when it is set there; otherwise the value in the [.env]
    file when it is set there; otherwise [http://localhost:8080].  The
    environment of the process wins over the file. *)
Theorem base_url_precedence (os_environ dotenv : gmap string string) :
  EPOCH_SERVER_URL os_environ dotenv
  = match os_environ !! "EPOCH_SERVER_URL" with
    | Some value => value
    | None =>
        match dotenv !! "EPOCH_SERVER_URL" with
        | Some value => value
        | None => "http://localhost:8080"
        end
    end.
Proof.
  unfold EPOCH_SERVER_URL, getenv. rewrite load_dotenv_lookup.
  destruct (os_environ !! "EPOCH_SERVER_URL"), (dotenv !! "EPOCH_SERVER_URL");
    reflexivity.
Qed.

Lemma append_cancel_l (a x y : string) : a +:+ x = a +:+ y -> x = y.
Proof.
  induction a as [|c a IH]; intros H; [exact H|].
  apply IH. injection H as H. exact H.
Qed.

Lemma append_length (a b : string) :
  String.length (a +:+ b) = (String.length a + String.length b)%nat.
Proof. induction a as [|c a IH]; simpl; [reflexivity | rewrite IH; reflexivity]. Qed.

Lemma append_cancel_r (x y b : string) : x +:+ b = y +:+ b -> x = y.
Proof.
  revert y. induction x as [|c x IH]; intros [|d y] H.
  - reflexivity.
  - apply (f_equal String.length) in H. rewrite !append_length in H.
    cbn [String.length] in H. lia.
  - apply (f_equal String.length) in H. rewrite !append_length in H.
    cbn [String.length] in H. lia.
  - injection H as -> H. f_equal. apply IH. exact H.
Qed.

(** The route of [start_epoch] and of [distribute_subsidies] for an epoch id
    that is a string determines the string. *)
Theorem same_url_same_epoch_id (t : tool) (base e1 e2 : string) :
  t <> health_check ->
  Httpx.target (route t base (Py.Str e1)) = Httpx.target (route t base (Py.Str e2)) ->
  e1 = e2.
Proof.
  intros Ht H. destruct t; [congruence | |]; simpl in H;
    apply append_cancel_l in H; apply append_cancel_l in H;
    apply append_cancel_r in H; exact H.
Qed.

Lemma same_url_same_epoch_id_witness :
  start_epoch <> health_check
  /\ Httpx.target (route start_epoch "http://x" (Py.Str "42"))
     = Httpx.target (route start_epoch "http://x" (Py.Str "42"))
  /\ "42" = "42".
Proof.
  split; [discriminate|]. split; [reflexivity|].
  exact (same_url_same_epoch_id start_epoch "http://x" "42" "42"
           ltac:(discriminate) eq_refl).
Defined.

(** ** The descriptors and the check of the arguments *)

(** Each tool has a descriptor under its name in the list of tools, whose
    required parameters are declared among its properties and are the ones
    that [passes_validation] looks at. *)
Theorem validation_follows_the_schema (t : tool) :
  exists d,
    find_tool (tool_name t) = Some d
    /\ McpTypes.name d = tool_name t
    /\ (forall p, In p (required_parameters (McpTypes.inputSchema d)) ->
                  In p (declared_parameters (McpTypes.inputSchema d)))
    /\ (forall arguments : gmap string Py.value,
          passes_validation t arguments
          = forallb (fun p => Py.truthy (default Py.None_ (arguments !! p)))
              (required_parameters (McpTypes.inputSchema d))).
Proof.
  destruct t; eexists; (split; [reflexivity|]); (split; [reflexivity|]); split.
  - intros p [].
  - reflexivity.
  - intros p [<-|[]]. left. reflexivity.
  - intros arguments. simpl. unfold epoch_id_of. rewrite andb_true_r. reflexivity.
  - intros p [<-|[]]. left. reflexivity.
  - intros arguments. simpl. unfold epoch_id_of. rewrite andb_true_r. reflexivity.
Qed.

(** ** Responses with the same status and body *)





(** ** The epoch id in the request *)

Lemma app_singleton_neq {A} (l : list A) (x : A) : l ++ [x] = l -> False.
Proof.
  intros H. apply (f_equal (@List.length A)) in H.
  rewrite List.length_app in H. simpl in H. lia.
Qed.



(** ** The descriptors and the handlers *)

(** X15: each tool has a descriptor under its own name in the list of tools,
    and every parameter that the descriptor requires is declared among its
    properties.  The handler of the tool answers with the text
    ["Error: epoch_id is required"] and without a call exactly when one of
    the parameters that the descriptor requires is missing from the
    arguments or falsy; so [health_check], which requires none, never does,
    and an [epoch_id] that is present and empty is refused although the
    schema allows it. *)
Theorem handler_check_follows_the_schema (t : tool) :
  exists d,
    find_tool (tool_name t) = Some d
    /\ McpTypes.name d = tool_name t
    /\ (forall p, In p (required_parameters (McpTypes.inputSchema d)) ->
                  In p (declared_parameters (McpTypes.inputSchema d)))
    /\ (forall (os_environ dotenv : gmap string string) (client : Client)
               (name : string) (arguments : gmap string Py.value)
               (calls : list Httpx.Request),
          forallb (fun p => Py.truthy (default Py.None_ (arguments !! p)))
            (required_parameters (McpTypes.inputSchema d)) = false
          <-> handler_of t os_environ dotenv client name arguments calls
              = (inr [ {| Mcp.type := "text";
                          Mcp.text := "Error: epoch_id is required" |} ], calls)).
Proof.
  assert (Hrun : forall t os_environ dotenv client name
                        (arguments : gmap string Py.value) calls,
             passes_validation t arguments = false
             <-> handler_of t os_environ dotenv client name arguments calls
                 = (inr [ {| Mcp.type := "text";
                             Mcp.text := "Error: epoch_id is required" |} ], calls)).
  { intros t0 os_environ dotenv client name arguments calls.
    rewrite handler_run. destruct (passes_validation t0 arguments); split;
      try reflexivity; try discriminate.
    intros H. injection H as _ H. apply app_singleton_neq in H. destruct H. }
  destruct t; eexists; (split; [reflexivity|]); (split; [reflexivity|]); split.
  - intros p [].
  - intros. rewrite <- Hrun. reflexivity.
  - intros p [<-|[]]. left. reflexivity.
  - intros. rewrite <- Hrun. simpl. unfold epoch_id_of. rewrite andb_true_r.
    reflexivity.
  - intros p [<-|[]]. left. reflexivity.
  - intros. rewrite <- Hrun. simpl. unfold epoch_id_of. rewrite andb_true_r.
    reflexivity.
Qed.
